(** * The templates / template-parts list screen of the site editor

    A shallow embedding of
    [packages/edit-site/src/components/page-templates-template-parts/index.js]:
    the view configuration, the derived field descriptors, the author
    enumeration and the handlers that forward user intent to the router and to
    the view state.

    JavaScript values are modelled as the code uses them: strings as [string],
    [undefined] as [None], plain objects used as dictionaries (the route's
    query parameters, the per-layout configuration table) as [gmap], objects of
    a fixed shape as records, arrays as lists. The operations that are
    handed records are modelled a second time in [Store], on a heap of
    objects, to say which objects they write to. *)

From stdpp Require Import base option list gmap strings.
From Stdlib Require Import ZArith.

Local Open Scope string_scope.
Local Open Scope Z_scope.
Local Open Scope list_scope.

(** ** Imported constants

    [../../utils/constants] is imported by the screen but is not part of the
    sources at hand, so the values of its exports are parameters of the whole
    development. *)
Class Constants := {
  TEMPLATE_POST_TYPE : string;
  TEMPLATE_PART_POST_TYPE : string;
  ENUMERATION_TYPE : string;
  OPERATOR_IS_ANY : string;
  LAYOUT_GRID : string;
  LAYOUT_TABLE : string;
  LAYOUT_LIST : string;
}.

(** One concrete choice of the constants, used to run the definitions on
    examples. *)
Definition sample_constants : Constants := {|
  TEMPLATE_POST_TYPE := "wp_template";
  TEMPLATE_PART_POST_TYPE := "wp_template_part";
  ENUMERATION_TYPE := "enumeration";
  OPERATOR_IS_ANY := "isAny";
  LAYOUT_GRID := "grid";
  LAYOUT_TABLE := "table";
  LAYOUT_LIST := "list";
|}.

(** ** JavaScript objects used as dictionaries *)

(** An object whose properties hold a string or [undefined]. *)
Abbreviation JsObject := (gmap string (option string)).

(** [o.k]: reading a missing property and reading a property that holds
    [undefined] both give [undefined]. *)
Definition js_get (o : JsObject) (k : string) : option string :=
  mjoin (o !! k).

(** [a ?? b] and a destructuring default [{ k = b }], on values that are a
    string or [undefined]. *)
Definition js_default (a : option string) (b : string) : string :=
  default b a.

(** ** Data model *)

(** [item.title] is an object with a [rendered] property, or (as the preview's
    [aria-label] allows for) a plain string, or missing. *)
Inductive TitleValue :=
| TitleMissing
| TitleString (s : string)
| TitleObject (rendered : option string).

(** A template or template part as the data layer hands it out. *)
Record Template := {
  t_id : string;
  t_type : string;
  t_title : TitleValue;
  t_description : string;
  t_content_raw : string;
  t_author_text : string;
}.

(** [item.title?.rendered] *)
Definition title_rendered (item : Template) : option string :=
  match t_title item with
  | TitleObject r => r
  | TitleString _ | TitleMissing => None
  end.

Record SortConfig := {
  sort_field : string;
  sort_direction : string;
}.

Record Filter := {
  filter_field : string;
  filter_operator : string;
  filter_value : list string;
}.

(** A per-layout display configuration; every property is optional. *)
Record LayoutConfig := {
  primaryField : option string;
  mediaField : option string;
  columnFields : option (list string);
}.

(** What a lookup in the table of per-layout configurations can give: one
    of the table's own entries, a member every plain object inherits from
    [Object.prototype] (a function, or the prototype itself for
    ['__proto__']), or [undefined]. *)
Inductive LayoutValue :=
| LayoutUndefined
| LayoutObject (config : LayoutConfig)
| LayoutInherited (property : string).

Record View := {
  v_type : string;
  v_search : string;
  v_page : Z;
  v_perPage : Z;
  v_sort : SortConfig;
  v_hiddenFields : list string;
  v_layout : LayoutValue;
  v_filters : list Filter;
}.

(** What [AuthorField] shows: the avatar with its [is-loaded] class, or the
    icon, and the name. *)
Record AuthorFieldOutput (Icon : Type) := {
  af_avatar : option (string * bool);
  af_icon : option Icon;
  af_name : string;
}.
Arguments af_avatar {Icon} _.
Arguments af_icon {Icon} _.
Arguments af_name {Icon} _.

(** The button [Preview] shows in the grid and table layouts. *)
Record PreviewButton (Block ClickHandler : Type) := {
  pb_onClick : ClickHandler;
  pb_ariaLabel : TitleValue;
  pb_emptyText : option string;
  pb_blocks : option (list Block);
}.
Arguments pb_onClick {Block ClickHandler} _.
Arguments pb_ariaLabel {Block ClickHandler} _.
Arguments pb_emptyText {Block ClickHandler} _.
Arguments pb_blocks {Block ClickHandler} _.

Record PreviewOutput (Block ClickHandler Settings : Type) := {
  pv_settings : Settings;
  pv_className : string;
  pv_backgroundColor : string;
  pv_listBlocks : option (list Block);
  pv_button : option (PreviewButton Block ClickHandler);
}.
Arguments pv_settings {Block ClickHandler Settings} _.
Arguments pv_className {Block ClickHandler Settings} _.
Arguments pv_backgroundColor {Block ClickHandler Settings} _.
Arguments pv_listBlocks {Block ClickHandler Settings} _.
Arguments pv_button {Block ClickHandler Settings} _.

(** An element of an enumeration field: a value and the label shown for it. *)
Record AuthorOption := {
  ao_value : string;
  ao_label : string;
}.

(** [{ ...view, type: x }] and its siblings. *)
Definition with_type (x : string) (v : View) : View :=
  {| v_type := x; v_search := v_search v; v_page := v_page v;
     v_perPage := v_perPage v; v_sort := v_sort v;
     v_hiddenFields := v_hiddenFields v; v_layout := v_layout v;
     v_filters := v_filters v |}.

Definition with_layout (x : LayoutValue) (v : View) : View :=
  {| v_type := v_type v; v_search := v_search v; v_page := v_page v;
     v_perPage := v_perPage v; v_sort := v_sort v;
     v_hiddenFields := v_hiddenFields v; v_layout := x;
     v_filters := v_filters v |}.

Definition with_filters (x : list Filter) (v : View) : View :=
  {| v_type := v_type v; v_search := v_search v; v_page := v_page v;
     v_perPage := v_perPage v; v_sort := v_sort v;
     v_hiddenFields := v_hiddenFields v; v_layout := v_layout v;
     v_filters := x |}.

(** [{ ...c }]: a copy of the own enumerable properties of [c]. Spreading
    [undefined] gives the empty object, and so does spreading a member of
    [Object.prototype], which has no enumerable property of its own. *)
Definition spread_layout (c : LayoutValue) : LayoutConfig :=
  match c with
  | LayoutObject c => c
  | LayoutUndefined | LayoutInherited _ =>
      {| primaryField := None; mediaField := None; columnFields := None |}
  end.

(** The names every plain object answers through [Object.prototype]. *)
Definition Object_prototype_keys : list string :=
  [ "constructor"; "__defineGetter__"; "__defineSetter__"; "hasOwnProperty";
    "__lookupGetter__"; "__lookupSetter__"; "isPrototypeOf";
    "propertyIsEnumerable"; "toString"; "valueOf"; "__proto__";
    "toLocaleString" ].

(** [table[ key ]] on a plain object with the own properties [table]: an
    own property wins, then the prototype answers for its names, and any
    other key gives [undefined]. *)
Definition lookup_layout (table : gmap string LayoutConfig) (key : string)
    : LayoutValue :=
  match table !! key with
  | Some config => LayoutObject config
  | None =>
      if decide (key ∈ Object_prototype_keys)
      then LayoutInherited key
      else LayoutUndefined
  end.

(** ** Rendered output

    What a field's [render] returns: a React element, that is a description
    of the component to mount and of its props, or plain markup. Text is
    held as JSX hands it over, with its character references decoded: where
    the source writes [&#8212;] the element holds the em dash. *)
Inductive Element :=
| PreviewElement (item : Template) (viewType : string)
| TitleElement (item : Template) (viewType : string)
| AuthorFieldElement (viewType : string) (item : Template)
| DescriptionElement (text : option string)
| NoDescriptionElement (dash : string) (visuallyHidden : string)
| RendersNothing.

(** A field descriptor; properties a descriptor leaves out are [None]. *)
Record Field := {
  f_header : string;
  f_id : string;
  f_getValue : option (Template → option string);
  f_render : Template → Element;
  f_minWidth : option Z;
  f_maxWidth : option Z;
  f_width : option string;
  f_enableSorting : option bool;
  f_enableHiding : option bool;
  f_enableGlobalSearch : option bool;
  f_type : option string;
  f_elements : option (list AuthorOption);
}.

(** The props of [Link] that [Title] builds. *)
Record LinkProps := {
  lp_params : JsObject;
  lp_state : option JsObject;
}.

Inductive TitleOutput :=
| TitleText (text : string)
| TitleLink (linkProps : LinkProps) (children : string).

(** ** The world the screen runs in

    The route's query parameters and the history come from the router, the
    records from the data layer, the view is the screen's own state. *)
Record World := {
  w_params : JsObject;
  w_records : option (list Template);
  w_isResolving : bool;
  w_view : View;
  w_history : list JsObject;
}.

(** A handler either returns or throws; what it did to the world before
    throwing stays done. *)
Inductive Outcome (A : Type) :=
| Returned (a : A)
| Thrown (error : string).
Arguments Returned {A} a.
Arguments Thrown {A} error.

Definition M (A : Type) : Type := World → Outcome A * World.

#[export] Instance M_ret : MRet M := λ A a w, (Returned a, w).

#[export] Instance M_bind : MBind M := λ A B f m w,
  match m w with
  | (Returned a, w') => f a w'
  | (Thrown e, w') => (Thrown e, w')
  end.

Definition throw {A} (error : string) : M A := λ w, (Thrown error, w).

Definition get_params : M JsObject := λ w, (Returned (w_params w), w).

Definition get_view : M View := λ w, (Returned (w_view w), w).

(** [useEntityRecords( 'postType', postType, { per_page: -1 } )] as seen from
    the screen: the records and the resolving flag of the data layer. *)
Definition useEntityRecords : M (option (list Template) * bool) :=
  λ w, (Returned (w_records w, w_isResolving w), w).

(** [setView( updater )] *)
Definition setView (updater : View → View) : M unit := λ w,
  (Returned (),
   {| w_params := w_params w; w_records := w_records w;
      w_isResolving := w_isResolving w; w_view := updater (w_view w);
      w_history := w_history w |}).

(** [history.push( location )]: the newest entry is the head. *)
Definition history_push (location : JsObject) : M unit := λ w,
  (Returned (),
   {| w_params := w_params w; w_records := w_records w;
      w_isResolving := w_isResolving w; w_view := w_view w;
      w_history := location :: w_history w |}).

(** The world a computation leaves behind. *)
Definition exec {A} (m : M A) (w : World) : World := (m w).2.

(** ** The host's collaborators

    Everything the screen imports and calls but does not own. *)
Record AddedBy (Icon : Type) := {
  ab_text : string;
  ab_icon : Icon;
  ab_imageUrl : option string;
}.
Arguments ab_text {Icon} _.
Arguments ab_icon {Icon} _.
Arguments ab_imageUrl {Icon} _.

Record FilterResult (PaginationInfo : Type) := {
  fr_data : list Template;
  fr_paginationInfo : PaginationInfo;
}.
Arguments fr_data {PaginationInfo} _.
Arguments fr_paginationInfo {PaginationInfo} _.

Inductive AddNew :=
| AddNewTemplate
| AddNewTemplatePart.

(** The props the screen hands to [DataViews]. *)
Record DataViewsProps (PaginationInfo Action : Type) := {
  dv_paginationInfo : PaginationInfo;
  dv_fields : list Field;
  dv_actions : list Action;
  dv_data : list Template;
  dv_isLoading : bool;
  dv_view : View;
  dv_onChangeView : View → M unit;
  dv_onSelectionChange : list Template → M unit;
}.
Arguments dv_paginationInfo {PaginationInfo Action} _.
Arguments dv_fields {PaginationInfo Action} _.
Arguments dv_actions {PaginationInfo Action} _.
Arguments dv_data {PaginationInfo Action} _.
Arguments dv_isLoading {PaginationInfo Action} _.
Arguments dv_view {PaginationInfo Action} _.
Arguments dv_onChangeView {PaginationInfo Action} _.
Arguments dv_onSelectionChange {PaginationInfo Action} _.

(** The props the screen hands to [Page], with [DataViews] as its child. *)
Record PageProps (PaginationInfo Action : Type) := {
  page_className : string;
  page_title : string;
  page_actions : AddNew;
  page_children : DataViewsProps PaginationInfo Action;
}.
Arguments page_className {PaginationInfo Action} _.
Arguments page_title {PaginationInfo Action} _.
Arguments page_actions {PaginationInfo Action} _.
Arguments page_children {PaginationInfo Action} _.

Class Host := {
  Block : Type;
  Icon : Type;
  Settings : Type;
  ClickHandler : Type;
  PaginationInfo : Type;
  Action : Type;
  __ : string → string;
  decodeEntities : option string → option string;
  parse : string → list Block;
  useAddedBy : string → string → AddedBy Icon;
  usePatternSettings : Settings;
  useGlobalStyle : string → option string;
  useLink : JsObject → ClickHandler;
  filterSortAndPaginate :
    option (list Template) → View → list Field → FilterResult PaginationInfo;
  usePostActions : (string → list Template → M unit) → list string → list Action;
}.

(** A host that does as little as possible, used to run the definitions on
    examples. *)
Definition sample_host : Host := {|
  Block := string;
  Icon := unit;
  Settings := unit;
  ClickHandler := JsObject;
  PaginationInfo := nat * nat;
  Action := string;
  __ := λ s, s;
  decodeEntities := λ s, s;
  parse := λ raw, if decide (raw = "") then [] else [raw];
  useAddedBy := λ type id,
    {| ab_text := id; ab_icon := (); ab_imageUrl := None |};
  usePatternSettings := ();
  useGlobalStyle := λ _, None;
  useLink := λ params, params;
  filterSortAndPaginate := λ records view fields,
    {| fr_data := default [] records;
       fr_paginationInfo := (length (default [] records), 1%nat) |};
  usePostActions := λ _ ids, ids;
|}.

Section Screen.
Context `{!Constants} `{!Host}.

(** ** View configuration *)

(** The own properties of an object literal with computed keys: a later key
    overwrites an equal earlier one. The code reads the object through
    [lookup_layout]. *)
Definition defaultConfigPerViewType : gmap string LayoutConfig :=
  <[ LAYOUT_LIST :=
       {| primaryField := Some "title"; mediaField := Some "preview";
          columnFields := None |} ]>
  (<[ LAYOUT_GRID :=
       {| primaryField := Some "title"; mediaField := Some "preview";
          columnFields := Some ["description"] |} ]>
  (<[ LAYOUT_TABLE :=
       {| primaryField := Some "title"; mediaField := None;
          columnFields := None |} ]> ∅)).

Definition DEFAULT_VIEW : View := {|
  v_type := LAYOUT_GRID;
  v_search := "";
  v_page := 1;
  v_perPage := 20;
  v_sort := {| sort_field := "title"; sort_direction := "asc" |};
  v_hiddenFields := ["preview"];
  v_layout := lookup_layout defaultConfigPerViewType LAYOUT_GRID;
  v_filters := [];
|}.

(** [const { activeView = 'all', layout } = params] *)
Definition activeView_of (params : JsObject) : string :=
  js_default (js_get params "activeView") "all".

Definition layout_of (params : JsObject) : option string :=
  js_get params "layout".

(** The view the screen starts from. *)
Definition defaultView (params : JsObject) : View :=
  let activeView := activeView_of params in
  let layout := layout_of params in
  let usedType := js_default layout (v_type DEFAULT_VIEW) in
  with_filters
    (if decide (activeView ≠ "all")
     then [ {| filter_field := "author"; filter_operator := "isAny";
               filter_value := [activeView] |} ]
     else [])
    (with_layout (lookup_layout defaultConfigPerViewType usedType)
       (with_type usedType DEFAULT_VIEW)).

(** The updater the [activeView] effect hands to [setView]. *)
Definition activeViewUpdater (activeView : string) (currentView : View) : View :=
  with_filters
    (if decide (activeView ≠ "all")
     then [ {| filter_field := "author"; filter_operator := OPERATOR_IS_ANY;
               filter_value := [activeView] |} ]
     else [])
    currentView.

(** ** The author enumeration *)

Definition EMPTY_ARRAY {A} : list A := [].

(** [Set.prototype.add] on a set kept in insertion order: adding a member
    that is already there changes nothing. *)
Definition set_add (x : string) (s : list string) : list string :=
  if decide (x ∈ s) then s else s ++ [x].

(** The [useMemo] that derives [authors] from [records]; [records] is
    [undefined] until the data layer has resolved them. *)
Definition authors (records : option (list Template)) : list AuthorOption :=
  match records with
  | None => EMPTY_ARRAY
  | Some records =>
      let authorsSet :=
        foldl (λ s template, set_add (t_author_text template) s) [] records in
      (λ author, {| ao_value := author; ao_label := author |}) <$> authorsSet
  end.


(** ** The components a field renders *)

(** Truthiness of a value that is a string or [undefined]. *)
Definition truthy (a : option string) : bool :=
  match a with
  | Some s => bool_decide (s ≠ "")
  | None => false
  end.

(** [a || b] with [b] a string. *)
Definition js_or (a : option string) (b : string) : string :=
  match a with
  | Some s => if decide (s ≠ "") then s else b
  | None => b
  end.

Definition Title (item : Template) (viewType : string) : TitleOutput :=
  if decide (viewType = LAYOUT_LIST)
  then TitleText (js_or (decodeEntities (title_rendered item)) (__ "(no title)"))
  else
    let linkProps :=
      {| lp_params :=
           <[ "canvas" := Some "edit" ]>
           (<[ "postType" := Some (t_type item) ]>
           (<[ "postId" := Some (t_id item) ]> ∅));
         lp_state := None |} in
    let linkProps :=
      if decide (t_type item = TEMPLATE_PART_POST_TYPE)
      then {| lp_params := lp_params linkProps;
              lp_state := Some (<[ "backPath" := Some "/wp_template_part/all" ]> ∅) |}
      else linkProps in
    TitleLink linkProps
      (js_or (decodeEntities (title_rendered item)) (__ "(no title)")).

(** [isImageLoaded] is the component's own state. *)
Definition AuthorField (isImageLoaded : bool) (item : Template)
    (viewType : string) : AuthorFieldOutput Icon :=
  let added := useAddedBy (t_type item) (t_id item) in
  let withIcon := bool_decide (viewType ≠ LAYOUT_LIST) in
  {| af_avatar :=
       if withIcon && truthy (ab_imageUrl added)
       then (λ src, (src, isImageLoaded)) <$> ab_imageUrl added
       else None;
     af_icon :=
       if withIcon && negb (truthy (ab_imageUrl added))
       then Some (ab_icon added)
       else None;
     af_name := ab_text added |}.

Definition Preview (item : Template) (viewType : string)
    : PreviewOutput Block ClickHandler Settings :=
  let settings := usePatternSettings in
  let backgroundColor := js_default (useGlobalStyle "color.background") "white" in
  let blocks := parse (t_content_raw item) in
  let onClick :=
    useLink (<[ "canvas" := Some "edit" ]>
             (<[ "postType" := Some (t_type item) ]>
             (<[ "postId" := Some (t_id item) ]> ∅))) in
  let isEmpty := bool_decide (length blocks = 0%nat) in
  {| pv_settings := settings;
     pv_className := "page-templates-preview-field is-viewtype-" +:+ viewType;
     pv_backgroundColor := backgroundColor;
     pv_listBlocks :=
       if bool_decide (viewType = LAYOUT_LIST) && negb isEmpty
       then Some blocks else None;
     pv_button :=
       if decide (viewType ≠ LAYOUT_LIST)
       then Some
         {| pb_onClick := onClick;
            pb_ariaLabel :=
              match title_rendered item with
              | Some rendered =>
                  if decide (rendered ≠ "") then TitleString rendered
                  else t_title item
              | None => t_title item
              end;
            pb_emptyText :=
              (if isEmpty
               then Some (if decide (t_type item = TEMPLATE_POST_TYPE)
                          then __ "Empty template"
                          else __ "Empty template part")
               else None);
            pb_blocks := if isEmpty then None else Some blocks |}
       else None |}.

Definition TEMPLATE_ACTIONS : list string :=
  [ "edit-post"; "reset-template"; "rename-template";
    "view-post-revisions"; "delete-template" ].


(** ** The screen *)

(** [useState( defaultView )]: the view starts as the default view of the
    route the screen is mounted on. *)
Definition mount : M unit :=
  params ← get_params;
  setView (λ _, defaultView params).

(** The effect that runs when [activeView] changes. *)
Definition activeViewEffect : M unit :=
  params ← get_params;
  setView (activeViewUpdater (activeView_of params)).

Definition onSelectionChange (items : list Template) : M unit :=
  params ← get_params;
  view ← get_view;
  if decide (v_type view = LAYOUT_LIST)
  then history_push
         (<[ "postId" :=
               if decide (length items = 1%nat)
               then t_id <$> items !! 0%nat
               else None ]> params)
  else mret ().

(** The [useMemo] that derives [fields]; [viewType] is [view.type]. *)
Definition fields (postType : string) (authors : list AuthorOption)
    (viewType : string) : list Field :=
  let _fields :=
    [ {| f_header := __ "Preview";
         f_id := "preview";
         f_getValue := None;
         f_render := λ item, PreviewElement item viewType;
         f_minWidth := Some 120;
         f_maxWidth := Some 120;
         f_width := None;
         f_enableSorting := Some false;
         f_enableHiding := None;
         f_enableGlobalSearch := None;
         f_type := None;
         f_elements := None |};
      {| f_header :=
           if decide (postType = TEMPLATE_POST_TYPE)
           then __ "Template" else __ "Template Part";
         f_id := "title";
         f_getValue := Some (λ item, title_rendered item);
         f_render := λ item, TitleElement item viewType;
         f_minWidth := None;
         f_maxWidth := Some 400;
         f_width := None;
         f_enableSorting := None;
         f_enableHiding := Some false;
         f_enableGlobalSearch := Some true;
         f_type := None;
         f_elements := None |} ] in
  let _fields :=
    if decide (postType = TEMPLATE_POST_TYPE)
    then _fields ++
      [ {| f_header := __ "Description";
           f_id := "description";
           f_getValue := None;
           f_render := λ item,
             if decide (t_description item ≠ "")
             then DescriptionElement
                    (decodeEntities (Some (t_description item)))
             else if decide (viewType = LAYOUT_TABLE)
             then NoDescriptionElement "—" (__ "No description.")
             else RendersNothing;
           f_minWidth := Some 320;
           f_maxWidth := Some 400;
           f_width := None;
           f_enableSorting := Some false;
           f_enableHiding := None;
           f_enableGlobalSearch := Some true;
           f_type := None;
           f_elements := None |} ]
    else _fields in
  _fields ++
    [ {| f_header := __ "Author";
         f_id := "author";
         f_getValue := Some (λ item, Some (t_author_text item));
         f_render := λ item, AuthorFieldElement viewType item;
         f_minWidth := None;
         f_maxWidth := None;
         f_width := Some "1%";
         f_enableSorting := None;
         f_enableHiding := None;
         f_enableGlobalSearch := None;
         f_type := Some ENUMERATION_TYPE;
         f_elements := Some authors |} ].

(** [items[ 0 ]] of an empty array is [undefined], and reading a property
    of [undefined] throws. *)
Definition onActionPerformed (actionId : string) (items : list Template)
    : M unit :=
  if decide (actionId = "edit-post")
  then
    match items !! 0%nat with
    | Some post =>
        history_push
          (<[ "canvas" := Some "edit" ]>
           (<[ "postType" := Some (t_type post) ]>
           (<[ "postId" := Some (t_id post) ]> ∅)))
    | None => throw "TypeError"
    end
  else mret ().

Definition onChangeView (newView : View) : M unit :=
  params ← get_params;
  view ← get_view;
  if decide (v_type newView ≠ v_type view)
  then
    let newView :=
      with_layout
        (LayoutObject
           (spread_layout (lookup_layout defaultConfigPerViewType (v_type newView))))
        newView in
    history_push (<[ "layout" := Some (v_type newView) ]> params);;
    setView (λ _, newView)
  else setView (λ _, newView).

(** What the screen renders from the current world. *)
Definition PageTemplatesTemplateParts (postType : string)
    : M (PageProps PaginationInfo Action) :=
  view ← get_view;
  '(records, isLoadingData) ← useEntityRecords;
  let authors := authors records in
  let fields := fields postType authors (v_type view) in
  let result := filterSortAndPaginate records view fields in
  let actions := usePostActions onActionPerformed TEMPLATE_ACTIONS in
  mret
    {| page_className := "edit-site-page-template-template-parts-dataviews";
       page_title :=
         if decide (postType = TEMPLATE_POST_TYPE)
         then __ "Templates" else __ "Template Parts";
       page_actions :=
         if decide (postType = TEMPLATE_POST_TYPE)
         then AddNewTemplate else AddNewTemplatePart;
       page_children :=
         {| dv_paginationInfo := fr_paginationInfo result;
            dv_fields := fields;
            dv_actions := actions;
            dv_data := fr_data result;
            dv_isLoading := isLoadingData;
            dv_view := view;
            dv_onChangeView := onChangeView;
            dv_onSelectionChange := onSelectionChange |} |}.

End Screen.

(** ** The screen on a heap of objects

    The records the data layer hands out are objects, and so is what the
    screen builds from them. To say what the screen does to the records,
    the operations that touch them are modelled once more on an explicit
    heap, with the reads, the allocations and the writes of the code.
    Arrays are lists of values and are not themselves part of the heap. *)
Module Store.

Abbreviation loc := positive.

Inductive Value :=
| VUndefined
| VNull
| VString (s : string)
| VBuiltin (name : string)
| VRef (l : loc).

#[global] Instance Value_eq_dec : EqDecision Value.
Proof. solve_decision. Defined.

Abbreviation Object := (gmap string Value).
Abbreviation Heap := (gmap loc Object).

(** The heap, and the locations handed to [history.push], newest first. *)
Record State := {
  heap : Heap;
  history : list loc;
}.

Definition S (A : Type) : Type := State → Outcome A * State.

#[global] Instance S_ret : MRet S := λ A a σ, (Returned a, σ).

#[global] Instance S_bind : MBind S := λ A B f m σ,
  match m σ with
  | (Returned a, σ') => f a σ'
  | (Thrown e, σ') => (Thrown e, σ')
  end.

Definition throw {A} (error : string) : S A := λ σ, (Thrown error, σ).

(** The state a computation leaves behind. *)
Definition exec {A} (m : S A) (σ : State) : State := (m σ).2.

(** An object literal: a new object at a location not in use. *)
Definition alloc (o : Object) : S loc := λ σ,
  let l := fresh (dom (heap σ)) in
  (Returned l, {| heap := <[ l := o ]> (heap σ); history := history σ |}).

(** A property of an object, own or inherited from [Object.prototype]. *)
Definition property (o : Object) (k : string) : Value :=
  match o !! k with
  | Some x => x
  | None => if decide (k ∈ Object_prototype_keys) then VBuiltin k else VUndefined
  end.

(** [v.k], for the property names the screen reads (none of which a
    string or a function answers): reading a property of [undefined] or
    [null] throws. *)
Definition get (v : Value) (k : string) : S Value := λ σ,
  match v with
  | VRef l =>
      match heap σ !! l with
      | Some o => (Returned (property o k), σ)
      | None => (Thrown "dangling reference", σ)
      end
  | VUndefined | VNull => (Thrown "TypeError", σ)
  | VString _ | VBuiltin _ => (Returned (property ∅ k), σ)
  end.

(** [v?.k] *)
Definition get_opt (v : Value) (k : string) : S Value :=
  match v with
  | VUndefined | VNull => mret VUndefined
  | _ => get v k
  end.

(** [l.k = x] on an object. *)
Definition set (l : loc) (k : string) (x : Value) : S unit := λ σ,
  match heap σ !! l with
  | Some o =>
      (Returned (),
       {| heap := <[ l := <[ k := x ]> o ]> (heap σ); history := history σ |})
  | None => (Thrown "dangling reference", σ)
  end.

(** [{ ...l }]: the own properties of an object. *)
Definition spread (l : loc) : S Object := λ σ,
  match heap σ !! l with
  | Some o => (Returned o, σ)
  | None => (Thrown "dangling reference", σ)
  end.

Definition history_push (location : loc) : S unit := λ σ,
  (Returned (), {| heap := heap σ; history := location :: history σ |}).

Definition truthy (v : Value) : bool :=
  match v with
  | VUndefined | VNull => false
  | VString s => bool_decide (s ≠ "")
  | VBuiltin _ | VRef _ => true
  end.

(** [a || b] *)
Definition js_or (a b : Value) : Value := if truthy a then a else b.

(** [items[ 0 ]] *)
Definition first (items : list Value) : Value :=
  default VUndefined (items !! 0%nat).

(** What the collaborators give back for the values they are handed. *)
Class Host := {
  Block : Type;
  Icon : Type;
  Settings : Type;
  ClickHandler : Type;
  __ : string → string;
  decodeEntities : Value → Value;
  parse : Value → list Block;
  useAddedBy : Value → Value → AddedBy Icon;
  usePatternSettings : Settings;
  useGlobalStyle : string → option string;
  useLink : Object → ClickHandler;
}.

Inductive Element :=
| PreviewElement (item : Value) (viewType : string)
| TitleElement (item : Value) (viewType : string)
| AuthorFieldElement (viewType : string) (item : Value)
| DescriptionElement (text : Value)
| NoDescriptionElement (dash : string) (visuallyHidden : string)
| RendersNothing.

Inductive TitleOutput :=
| TitleText (text : Value)
| TitleLink (props : Object) (children : Value).

Record PreviewButton (Block ClickHandler : Type) := {
  pb_onClick : ClickHandler;
  pb_ariaLabel : Value;
  pb_emptyText : option string;
  pb_blocks : option (list Block);
}.
Arguments pb_onClick {Block ClickHandler} _.
Arguments pb_ariaLabel {Block ClickHandler} _.
Arguments pb_emptyText {Block ClickHandler} _.
Arguments pb_blocks {Block ClickHandler} _.

Record PreviewOutput (Block ClickHandler Settings : Type) := {
  pv_settings : Settings;
  pv_className : string;
  pv_backgroundColor : string;
  pv_listBlocks : option (list Block);
  pv_button : option (PreviewButton Block ClickHandler);
}.
Arguments pv_settings {Block ClickHandler Settings} _.
Arguments pv_className {Block ClickHandler Settings} _.
Arguments pv_backgroundColor {Block ClickHandler Settings} _.
Arguments pv_listBlocks {Block ClickHandler Settings} _.
Arguments pv_button {Block ClickHandler Settings} _.

Section Screen.
Context `{!Constants} `{!Host}.

(** [{ postId: item.id, postType: item.type, canvas: 'edit' }] *)
Definition edit_params (item : Value) : S loc :=
  id ← get item "id";
  type ← get item "type";
  alloc (<[ "canvas" := VString "edit" ]>
         (<[ "postType" := type ]> (<[ "postId" := id ]> ∅))).

(** [decodeEntities( item.title?.rendered ) || __( '(no title)' )] *)
Definition title_text (item : Value) : S Value :=
  title ← get item "title";
  rendered ← get_opt title "rendered";
  mret (js_or (decodeEntities rendered) (VString (__ "(no title)"))).

Definition Title (item : Value) (viewType : string) : S TitleOutput :=
  if decide (viewType = LAYOUT_LIST)
  then text ← title_text item; mret (TitleText text)
  else
    params ← edit_params item;
    linkProps ← alloc (<[ "params" := VRef params ]> ∅);
    type ← get item "type";
    (if decide (type = VString TEMPLATE_PART_POST_TYPE)
     then
       state ← alloc (<[ "backPath" := VString "/wp_template_part/all" ]> ∅);
       set linkProps "state" (VRef state)
     else mret ());;
    props ← spread linkProps;
    children ← title_text item;
    mret (TitleLink props children).

Definition AuthorField (isImageLoaded : bool) (item : Value)
    (viewType : string) : S (AuthorFieldOutput Icon) :=
  type ← get item "type";
  id ← get item "id";
  let added := useAddedBy type id in
  let withIcon := bool_decide (viewType ≠ LAYOUT_LIST) in
  let hasImage :=
    match ab_imageUrl added with
    | Some url => bool_decide (url ≠ "")
    | None => false
    end in
  mret
    {| af_avatar :=
         if withIcon && hasImage
         then (λ src, (src, isImageLoaded)) <$> ab_imageUrl added
         else None;
       af_icon :=
         if withIcon && negb hasImage then Some (ab_icon added) else None;
       af_name := ab_text added |}.

Definition Preview (item : Value) (viewType : string)
    : S (PreviewOutput Block ClickHandler Settings) :=
  let settings := usePatternSettings in
  let backgroundColor := default "white" (useGlobalStyle "color.background") in
  content ← get item "content";
  raw ← get content "raw";
  let blocks := parse raw in
  linkParams ← edit_params item;
  linkObject ← spread linkParams;
  let onClick := useLink linkObject in
  let isEmpty := bool_decide (length blocks = 0%nat) in
  button ←
    (if decide (viewType ≠ LAYOUT_LIST)
     then
       title ← get item "title";
       rendered ← get_opt title "rendered";
       emptyText ←
         (if isEmpty
          then
            type ← get item "type";
            mret (Some (if decide (type = VString TEMPLATE_POST_TYPE)
                        then __ "Empty template"
                        else __ "Empty template part"))
          else mret None);
       mret (Some {| pb_onClick := onClick;
                     pb_ariaLabel := js_or rendered title;
                     pb_emptyText := emptyText;
                     pb_blocks := if isEmpty then None else Some blocks |})
     else mret None);
  mret
    {| pv_settings := settings;
       pv_className := "page-templates-preview-field is-viewtype-" +:+ viewType;
       pv_backgroundColor := backgroundColor;
       pv_listBlocks :=
         if bool_decide (viewType = LAYOUT_LIST) && negb isEmpty
         then Some blocks else None;
       pv_button := button |}.

(** The [forEach] over the records, on the set kept in insertion order. *)
Fixpoint collect_authors (records : list Value) (authorsSet : list Value)
    : S (list Value) :=
  match records with
  | [] => mret authorsSet
  | template :: records =>
      author ← get template "author_text";
      collect_authors records
        (if decide (author ∈ authorsSet) then authorsSet
         else authorsSet ++ [author])
  end.

(** [.map( ( author ) => ( { value: author, label: author } ) )] *)
Fixpoint author_options (authorsSet : list Value) : S (list loc) :=
  match authorsSet with
  | [] => mret []
  | author :: authorsSet =>
      option ← alloc (<[ "label" := author ]> (<[ "value" := author ]> ∅));
      options ← author_options authorsSet;
      mret (option :: options)
  end.

Definition authors (records : option (list Value)) : S (list loc) :=
  match records with
  | None => mret []
  | Some records =>
      authorsSet ← collect_authors records [];
      author_options authorsSet
  end.

(** The accessors and renderers of the field descriptors. *)
Definition getValue_title (item : Value) : S Value :=
  title ← get item "title";
  get_opt title "rendered".

Definition getValue_author (item : Value) : S Value :=
  get item "author_text".

Definition render_preview (viewType : string) (item : Value) : S Element :=
  mret (PreviewElement item viewType).

Definition render_title (viewType : string) (item : Value) : S Element :=
  mret (TitleElement item viewType).

Definition render_author (viewType : string) (item : Value) : S Element :=
  mret (AuthorFieldElement viewType item).

Definition render_description (viewType : string) (item : Value) : S Element :=
  description ← get item "description";
  if truthy description
  then
    description ← get item "description";
    mret (DescriptionElement (decodeEntities description))
  else if decide (viewType = LAYOUT_TABLE)
  then mret (NoDescriptionElement "—" (__ "No description."))
  else mret RendersNothing.

(** The handlers; [params] is the route's parameter object and [viewType]
    the type of the stored view. *)
Definition onSelectionChange (params : loc) (viewType : string)
    (items : list Value) : S unit :=
  if decide (viewType = LAYOUT_LIST)
  then
    route ← spread params;
    postId ←
      (if decide (length items = 1%nat)
       then get (first items) "id"
       else mret VUndefined);
    location ← alloc (<[ "postId" := postId ]> route);
    history_push location
  else mret ().

Definition onActionPerformed (actionId : string) (items : list Value)
    : S unit :=
  if decide (actionId = "edit-post")
  then
    let post := first items in
    location ← edit_params post;
    history_push location
  else mret ().

End Screen.

(** One state is an extension of a heap when every object of that heap is
    still there, with the same properties. *)
Definition extends (h : Heap) (σ : State) : Prop :=
  ∀ l, l ∈ dom h → heap σ !! l = h !! l.

(** A computation that leaves every object that exists when it starts as
    it is, whether it returns or throws. *)
Definition keeps_objects {A} (m : S A) : Prop :=
  ∀ σ, extends (heap σ) (exec m σ).

(** The same for a part of a longer computation: it keeps the objects of
    [h], which it may find extended by objects allocated since. *)
Definition preserves {A} (h : Heap) (m : S A) : Prop :=
  ∀ σ, extends h σ → extends h (exec m σ).

(** A host that does as little as possible. *)
Definition sample_host : Host := {|
  Block := Value;
  Icon := unit;
  Settings := unit;
  ClickHandler := Object;
  __ := λ s, s;
  decodeEntities := λ v, v;
  parse := λ raw, if truthy raw then [raw] else [];
  useAddedBy := λ type id,
    {| ab_text := "Theme"; ab_icon := (); ab_imageUrl := None |};
  usePatternSettings := ();
  useGlobalStyle := λ _, None;
  useLink := λ params, params;
|}.

(** A heap with one template part at location 1, its title object at 2 and
    its content object at 3. *)
Definition sample_heap : Heap :=
  <[ 1%positive :=
       <[ "id" := VString "theme//header" ]>
       (<[ "type" := VString "wp_template_part" ]>
       (<[ "title" := VRef 2 ]>
       (<[ "description" := VString "" ]>
       (<[ "content" := VRef 3 ]>
       (<[ "author_text" := VString "Theme" ]> ∅))))) ]>
  (<[ 2%positive := <[ "rendered" := VString "Header" ]> ∅ ]>
  (<[ 3%positive := <[ "raw" := VString "<!-- wp:site-title /-->" ]> ∅ ]> ∅)).

Definition sample_state : State := {| heap := sample_heap; history := [] |}.

End Store.

(** ** What the properties speak about *)

(** The text [Title] shows, as plain text or inside the link. *)
Definition title_label (output : TitleOutput) : string :=
  match output with
  | TitleText text => text
  | TitleLink _ children => children
  end.

(** The blocks [Preview] hands to [BlockPreview], in the list layout or
    inside the button. *)
Definition previewed_blocks {Block ClickHandler Settings : Type}
    (output : PreviewOutput Block ClickHandler Settings) : option (list Block) :=
  match pv_listBlocks output with
  | Some blocks => Some blocks
  | None => pv_button output ≫= pb_blocks
  end.

(** A computation that calls [history.push] once in the worlds where
    [navigates] holds, and not at all in the others. *)
Definition pushes_exactly_when {A} (m : M A) (navigates : World → Prop) : Prop :=
  ∀ w,
    (navigates w →
     ∃ location, w_history (exec m w) = location :: w_history w) ∧
    (¬ navigates w → w_history (exec m w) = w_history w).

(** ** Sample inputs *)

Definition sample_template (id author : string) : Template := {|
  t_id := id;
  t_type := "wp_template";
  t_title := TitleObject (Some id);
  t_description := "";
  t_content_raw := "";
  t_author_text := author;
|}.

(** A world on the route [params], with nothing fetched yet and a view that
    has not been touched. *)
Definition sample_world (params : JsObject) : World := {|
  w_params := params;
  w_records := None;
  w_isResolving := true;
  w_view := @DEFAULT_VIEW sample_constants;
  w_history := [];
|}.

(** A template part with some content. *)
Definition sample_part : Template := {|
  t_id := "theme//header";
  t_type := "wp_template_part";
  t_title := TitleObject (Some "Header");
  t_description := "";
  t_content_raw := "<!-- wp:site-title /-->";
  t_author_text := "Theme";
|}.

Definition route_all : JsObject := ∅.

(** The sample world once the screen is mounted on the route [params]. *)
Definition mounted_world (params : JsObject) : World :=
  exec (@mount sample_constants) (sample_world params).

Definition route_list : JsObject :=
  <[ "layout" := Some "list" ]> (<[ "activeView" := Some "admin" ]> ∅).

Definition route_author : JsObject :=
  <[ "layout" := Some "table" ]> (<[ "activeView" := Some "admin" ]> ∅).

(** * Properties *)

Section ViewProperties.
Context `{!Constants}.

Lemma activeView_of_missing (params : JsObject) :
  js_get params "activeView" = None → activeView_of params = "all".
Proof. unfold activeView_of. by intros ->. Qed.

Lemma activeView_of_present (params : JsObject) (a : string) :
  js_get params "activeView" = Some a → activeView_of params = a.
Proof. unfold activeView_of. by intros ->. Qed.

Lemma defaultView_filters_selected (params : JsObject) :
  activeView_of params ≠ "all" →
  v_filters (defaultView params) =
    [ {| filter_field := "author"; filter_operator := "isAny";
         filter_value := [activeView_of params] |} ].
Proof. intros Hne. unfold defaultView. cbn. by rewrite decide_True. Qed.

Lemma defaultView_filters_all (params : JsObject) :
  activeView_of params = "all" → v_filters (defaultView params) = [].
Proof. intros Heq. unfold defaultView. cbn. rewrite decide_False; [done|]. by intros []. Qed.

Lemma activeViewUpdater_filters_selected (activeView : string) (view : View) :
  activeView ≠ "all" →
  v_filters (activeViewUpdater activeView view) =
    [ {| filter_field := "author"; filter_operator := OPERATOR_IS_ANY;
         filter_value := [activeView] |} ].
Proof. intros Hne. unfold activeViewUpdater. cbn. by rewrite decide_True. Qed.

Lemma activeViewUpdater_filters_all (view : View) :
  v_filters (activeViewUpdater "all" view) = [].
Proof. done. Qed.

(** The effect touches the filters and nothing else of the view. *)
Lemma activeViewUpdater_frame (activeView : string) (view : View) :
  with_filters (v_filters view) (activeViewUpdater activeView view) = view.
Proof. by destruct view. Qed.

(** An own entry of the table is what the lookup gives. *)
Lemma lookup_layout_own (table : gmap string LayoutConfig) (key : string)
    (config : LayoutConfig) :
  table !! key = Some config → lookup_layout table key = LayoutObject config.
Proof. unfold lookup_layout. by intros ->. Qed.

(** A key that is neither an entry nor a name of the prototype gives
    [undefined]. *)
Lemma lookup_layout_undefined (table : gmap string LayoutConfig) (key : string) :
  table !! key = None → key ∉ Object_prototype_keys →
  lookup_layout table key = LayoutUndefined.
Proof. unfold lookup_layout. intros -> Hkey. by rewrite decide_False. Qed.

(** The table has an entry for the three layouts and for nothing else. *)
Lemma defaultConfigPerViewType_is_Some (viewType : string) :
  is_Some (defaultConfigPerViewType !! viewType) ↔
  viewType = LAYOUT_LIST ∨ viewType = LAYOUT_GRID ∨ viewType = LAYOUT_TABLE.
Proof.
  unfold defaultConfigPerViewType.
  rewrite !lookup_insert_is_Some', lookup_empty. split.
  - intros [ <- | [ <- | [ <- | Hnone ] ] ]; [tauto|tauto|tauto|by destruct Hnone].
  - intros [ -> | [ -> | -> ] ]; tauto.
Qed.

(** With the three layouts distinct, the entries of the table are the ones
    the literal is written with. *)
Lemma defaultConfigPerViewType_entries :
  LAYOUT_TABLE ≠ LAYOUT_GRID → LAYOUT_TABLE ≠ LAYOUT_LIST →
  LAYOUT_GRID ≠ LAYOUT_LIST →
  defaultConfigPerViewType !! LAYOUT_TABLE =
    Some {| primaryField := Some "title"; mediaField := None;
            columnFields := None |} ∧
  defaultConfigPerViewType !! LAYOUT_GRID =
    Some {| primaryField := Some "title"; mediaField := Some "preview";
            columnFields := Some ["description"] |} ∧
  defaultConfigPerViewType !! LAYOUT_LIST =
    Some {| primaryField := Some "title"; mediaField := Some "preview";
            columnFields := None |}.
Proof.
  intros Htg Htl Hgl. unfold defaultConfigPerViewType. split_and!.
  - rewrite lookup_insert_ne, lookup_insert_ne by done. apply lookup_insert_eq.
  - rewrite lookup_insert_ne by done. apply lookup_insert_eq.
  - apply lookup_insert_eq.
Qed.

Lemma exec_mount (w : World) :
  w_view (exec mount w) = defaultView (w_params w).
Proof. done. Qed.

Lemma exec_activeViewEffect (w : World) :
  w_view (exec activeViewEffect w) =
    activeViewUpdater (activeView_of (w_params w)) (w_view w).
Proof. done. Qed.

(** C1. For every route, the filters of the view reflect the selected
    author segment: in the view the screen starts from, and in the view
    the [activeView] effect leaves behind, the filters are the single
    filter on the field ['author'] with the is-any operator and the value
    [[activeView]] when [activeView] is not ['all'], and no filter at all
    when it is ['all']. The default view spells the operator ['isAny'],
    the effect takes it from the imported [OPERATOR_IS_ANY]. *)
Theorem filters_reflect_activeView (w : World) :
  let activeView := activeView_of (w_params w) in
  (activeView ≠ "all" →
     v_filters (w_view (exec mount w)) =
       [ {| filter_field := "author"; filter_operator := "isAny";
            filter_value := [activeView] |} ] ∧
     v_filters (w_view (exec activeViewEffect w)) =
       [ {| filter_field := "author"; filter_operator := OPERATOR_IS_ANY;
            filter_value := [activeView] |} ]) ∧
  (activeView = "all" →
     v_filters (w_view (exec mount w)) = [] ∧
     v_filters (w_view (exec activeViewEffect w)) = []).
Proof.
  intros activeView. rewrite exec_mount, exec_activeViewEffect.
  fold activeView. split.
  - intros Hne. split.
    + by apply defaultView_filters_selected.
    + by apply activeViewUpdater_filters_selected.
  - intros Heq. split.
    + by apply defaultView_filters_all.
    + rewrite Heq. apply activeViewUpdater_filters_all.
Qed.

(** When the imported operator constant is the string the default view
    spells out, the initial view and the effect agree on the filters. *)
Corollary mount_effect_same_filters (w : World) :
  OPERATOR_IS_ANY = "isAny" →
  v_filters (w_view (exec activeViewEffect w)) =
    v_filters (w_view (exec mount w)).
Proof.
  intros Hop. rewrite exec_mount, exec_activeViewEffect.
  destruct (decide (activeView_of (w_params w) = "all")) as [Heq|Hne].
  - rewrite defaultView_filters_all by done. rewrite Heq.
    apply activeViewUpdater_filters_all.
  - rewrite defaultView_filters_selected, activeViewUpdater_filters_selected by done.
    by rewrite Hop.
Qed.

(** C4. The view starts from a default derived from the route's query
    parameters: its type is the route's [layout] parameter when there is
    one and the grid layout otherwise, its per-layout configuration is what
    [defaultConfigPerViewType] gives for that type (its entry when the type
    has one, as for the three layouts), and the search
    [''], page [1], [perPage] 20, the sort by title ascending and the
    hidden fields [['preview']] are those of the fixed [DEFAULT_VIEW]. *)
Theorem initial_view_from_route (w : World) :
  let view := w_view (exec mount w) in
  v_type view =
    match js_get (w_params w) "layout" with
    | Some layout => layout
    | None => LAYOUT_GRID
    end ∧
  v_layout view = lookup_layout defaultConfigPerViewType (v_type view) ∧
  (∀ config, defaultConfigPerViewType !! v_type view = Some config →
             v_layout view = LayoutObject config) ∧
  (v_search view = "" ∧ v_search view = v_search DEFAULT_VIEW) ∧
  (v_page view = 1 ∧ v_page view = v_page DEFAULT_VIEW) ∧
  (v_perPage view = 20 ∧ v_perPage view = v_perPage DEFAULT_VIEW) ∧
  (v_sort view = {| sort_field := "title"; sort_direction := "asc" |} ∧
   v_sort view = v_sort DEFAULT_VIEW) ∧
  (v_hiddenFields view = ["preview"] ∧
   v_hiddenFields view = v_hiddenFields DEFAULT_VIEW).
Proof.
  intros view. subst view. rewrite exec_mount.
  split.
  { unfold defaultView, layout_of, js_default. cbn.
    by destruct (js_get (w_params w) "layout"). }
  split; [done|]. split; [|done].
  intros config Hconfig.
  change (v_layout (defaultView (w_params w)))
    with (lookup_layout defaultConfigPerViewType
            (v_type (defaultView (w_params w)))).
  by apply lookup_layout_own.
Qed.

End ViewProperties.

(** Both cases of C1 on concrete routes: one that selects the author
    [admin], and one without an [activeView] parameter. *)
Lemma filters_reflect_activeView_witness :
  (v_filters (w_view (exec (@mount sample_constants) (sample_world route_author))) =
     [ {| filter_field := "author"; filter_operator := "isAny";
          filter_value := ["admin"] |} ] ∧
   v_filters (w_view (exec (@activeViewEffect sample_constants) (sample_world route_author))) =
     [ {| filter_field := "author"; filter_operator := "isAny";
          filter_value := ["admin"] |} ]) ∧
  (v_filters (w_view (exec (@mount sample_constants) (sample_world route_all))) = [] ∧
   v_filters (w_view (exec (@activeViewEffect sample_constants) (sample_world route_all))) = []).
Proof.
  split.
  - apply (proj1 (@filters_reflect_activeView sample_constants (sample_world route_author))).
    vm_compute. discriminate.
  - apply (proj2 (@filters_reflect_activeView sample_constants (sample_world route_all))).
    vm_compute. reflexivity.
Defined.

Section AuthorProperties.

Lemma elem_of_set_add (x y : string) (s : list string) :
  y ∈ set_add x s ↔ y = x ∨ y ∈ s.
Proof.
  unfold set_add. case_decide as Hin.
  - split; [by right|]. intros [->|]; done.
  - rewrite elem_of_app, list_elem_of_singleton. tauto.
Qed.

Lemma NoDup_set_add (x : string) (s : list string) :
  NoDup s → NoDup (set_add x s).
Proof.
  intros Hs. unfold set_add. case_decide as Hin; [done|].
  apply NoDup_app. split_and!; [done| |apply NoDup_singleton].
  intros y Hy. rewrite list_elem_of_singleton. by intros ->.
Qed.

(** The set after the [forEach], from any set the loop may start with. *)
Lemma elem_of_authorsSet (records : list Template) (s0 : list string) (a : string) :
  a ∈ foldl (λ s template, set_add (t_author_text template) s) s0 records ↔
  a ∈ s0 ∨ ∃ template, template ∈ records ∧ t_author_text template = a.
Proof.
  revert s0. induction records as [|r records IH]; intros s0; cbn.
  - split; [by left|]. intros [|(t & Ht & _)]; [done|]. by apply elem_of_nil in Ht.
  - rewrite IH, elem_of_set_add. split.
    + intros [[->|]|(t & Ht & <-)].
      * right. exists r. split; [apply list_elem_of_here|done].
      * by left.
      * right. exists t. split; [by apply list_elem_of_further|done].
    + intros [|(t & Ht & <-)]; [by left; right|].
      apply elem_of_cons in Ht as [->|Ht]; [by left; left|].
      right. by exists t.
Qed.

Lemma NoDup_authorsSet (records : list Template) (s0 : list string) :
  NoDup s0 →
  NoDup (foldl (λ s template, set_add (t_author_text template) s) s0 records).
Proof.
  revert s0. induction records as [|r records IH]; intros s0 Hs0; cbn; [done|].
  by apply IH, NoDup_set_add.
Qed.

Lemma authors_values (records : list Template) :
  ao_value <$> authors (Some records) =
    foldl (λ s template, set_add (t_author_text template) s) [] records.
Proof.
  unfold authors. cbn zeta.
  generalize (foldl (λ s template, set_add (t_author_text template) s) [] records).
  intros s. induction s as [|a s IH]; cbn; [done|]. by f_equal.
Qed.

(** C10. The author enumeration is free of duplicates and faithful to the
    labels: the values of the derived [authors] are pairwise distinct,
    they are exactly the [author_text] values that occur in the records,
    every element has its label equal to its value, and the list is empty
    when no records have been fetched. *)
Theorem authors_enumeration (records : option (list Template)) :
  NoDup (ao_value <$> authors records) ∧
  NoDup (authors records) ∧
  (∀ a : string,
     a ∈ (ao_value <$> authors records) ↔
     ∃ rs template,
       records = Some rs ∧ template ∈ rs ∧ t_author_text template = a) ∧
  (∀ e : AuthorOption, e ∈ authors records → ao_label e = ao_value e) ∧
  authors None = [].
Proof.
  assert (Hnd : NoDup (ao_value <$> authors records)).
  { destruct records as [rs|]; [|apply NoDup_nil_2].
    rewrite authors_values. apply NoDup_authorsSet, NoDup_nil_2. }
  split_and!; [done| | | |done].
  - by apply NoDup_fmap_1 in Hnd.
  - intros a. destruct records as [rs|].
    + rewrite authors_values, elem_of_authorsSet. split.
      * intros [Ha|(t & Ht & Hat)]; [by apply elem_of_nil in Ha|].
        by exists rs, t.
      * intros (rs' & t & [= <-] & Ht & Hat). right. by exists t.
    + cbn. split; [intros Ha; by apply elem_of_nil in Ha|].
      by intros (? & ? & ? & _).
  - intros e. destruct records as [rs|]; cbn.
    + rewrite list_elem_of_fmap. by intros (a & -> & _).
    + intros He. by apply elem_of_nil in He.
Qed.

End AuthorProperties.

Section FieldProperties.
Context `{!Constants} `{!Host}.

(** The ids of the derived fields, in order. *)
Lemma fields_ids (postType : string) (authors : list AuthorOption)
    (viewType : string) :
  f_id <$> fields postType authors viewType =
    if decide (postType = TEMPLATE_POST_TYPE)
    then ["preview"; "title"; "description"; "author"]
    else ["preview"; "title"; "author"].
Proof. unfold fields. by case_decide. Qed.

Lemma elem_of_fields_id (postType : string) (authors : list AuthorOption)
    (viewType id : string) :
  (∃ f, f ∈ fields postType authors viewType ∧ f_id f = id) ↔
  id ∈ (f_id <$> fields postType authors viewType).
Proof.
  rewrite list_elem_of_fmap. split.
  - intros (f & Hf & <-). by exists f.
  - intros (f & -> & Hf). by exists f.
Qed.

(** C3. For every post type, author list and view type, the ids of the
    derived field descriptors are pairwise distinct. *)
Theorem fields_ids_unique (postType : string) (authors : list AuthorOption)
    (viewType : string) :
  NoDup (f_id <$> fields postType authors viewType).
Proof.
  rewrite fields_ids. case_decide.
  - by apply (bool_decide_unpack _).
  - by apply (bool_decide_unpack _).
Qed.

(** C6. Each record is rendered as a title, an author and a live preview:
    for every post type and author list the derived fields hold a
    descriptor with id ['title'], one with id ['author'] and one with id
    ['preview'], and these render the [Title], [AuthorField] and [Preview]
    components on the record. *)
Theorem fields_title_author_preview (postType : string)
    (authors : list AuthorOption) (viewType : string) :
  (∃ f, f ∈ fields postType authors viewType ∧ f_id f = "title" ∧
        ∀ item, f_render f item = TitleElement item viewType) ∧
  (∃ f, f ∈ fields postType authors viewType ∧ f_id f = "author" ∧
        ∀ item, f_render f item = AuthorFieldElement viewType item) ∧
  (∃ f, f ∈ fields postType authors viewType ∧ f_id f = "preview" ∧
        ∀ item, f_render f item = PreviewElement item viewType).
Proof.
  unfold fields.
  destruct (decide (postType = TEMPLATE_POST_TYPE)); cbn; split_and!.
  - eexists. split; [by eapply (list_elem_of_lookup_2 _ 1%nat)|done].
  - eexists. split; [by eapply (list_elem_of_lookup_2 _ 3%nat)|done].
  - eexists. split; [by eapply (list_elem_of_lookup_2 _ 0%nat)|done].
  - eexists. split; [by eapply (list_elem_of_lookup_2 _ 1%nat)|done].
  - eexists. split; [by eapply (list_elem_of_lookup_2 _ 2%nat)|done].
  - eexists. split; [by eapply (list_elem_of_lookup_2 _ 0%nat)|done].
Qed.

(** C8. The description column is there exactly for templates: the
    derived fields hold a descriptor with id ['description'] if and only
    if the post type is the template post type; so, the two post types
    being different, the fields of the template-part post type hold
    none. *)
Theorem description_only_for_templates (postType : string)
    (authors : list AuthorOption) (viewType : string) :
  ((∃ f, f ∈ fields postType authors viewType ∧ f_id f = "description") ↔
   postType = TEMPLATE_POST_TYPE) ∧
  (TEMPLATE_PART_POST_TYPE ≠ TEMPLATE_POST_TYPE →
   ∀ f, f ∈ fields TEMPLATE_PART_POST_TYPE authors viewType →
        f_id f ≠ "description").
Proof.
  assert (Hiff : ∀ pt,
    (∃ f, f ∈ fields pt authors viewType ∧ f_id f = "description") ↔
    pt = TEMPLATE_POST_TYPE).
  { intros pt. rewrite elem_of_fields_id, fields_ids. case_decide as Hpt.
    - split; [done|]. intros _. by apply (bool_decide_unpack _).
    - split; [|done]. intros Hin. exfalso. revert Hin.
      by apply (bool_decide_unpack _). }
  split; [apply Hiff|].
  intros Hne f Hf Hid. apply Hne, Hiff. by exists f.
Qed.

End FieldProperties.

(** C8 on the sample constants, where the two post types differ. *)
Lemma description_only_for_templates_witness :
  @TEMPLATE_PART_POST_TYPE sample_constants ≠ @TEMPLATE_POST_TYPE sample_constants ∧
  (∀ f, f ∈ @fields sample_constants sample_host "wp_template_part" [] "grid" →
        f_id f ≠ "description") ∧
  (∃ f, f ∈ @fields sample_constants sample_host "wp_template" [] "grid" ∧
        f_id f = "description").
Proof.
  assert (Hne : @TEMPLATE_PART_POST_TYPE sample_constants ≠
                @TEMPLATE_POST_TYPE sample_constants).
  { vm_compute. discriminate. }
  split_and!; [exact Hne| |].
  - exact (proj2 (@description_only_for_templates sample_constants sample_host
                    "wp_template_part" [] "grid") Hne).
  - apply (proj1 (@description_only_for_templates sample_constants sample_host
                    "wp_template" [] "grid")).
    reflexivity.
Defined.

Section ScreenProperties.
Context `{!Constants} `{!Host}.

(** Rendering returns, changes nothing, and hands over these props. *)
Lemma render_returns (postType : string) (w : World) :
  ∃ props, PageTemplatesTemplateParts postType w = (Returned props, w).
Proof. by eexists. Qed.

(** C2. For every fetched record list, view and derived field list, the
    [data] and [paginationInfo] handed to [DataViews] are exactly what the
    imported [filterSortAndPaginate] returns on the records, the view and
    the fields; the screen does no filtering, sorting or pagination of its
    own. *)
Theorem data_is_filterSortAndPaginate (postType : string) (w : World) :
  ∃ props,
    PageTemplatesTemplateParts postType w = (Returned props, w) ∧
    let records := w_records w in
    let view := w_view w in
    let fields := fields postType (authors records) (v_type view) in
    dv_data (page_children props) =
      fr_data (filterSortAndPaginate records view fields) ∧
    dv_paginationInfo (page_children props) =
      fr_paginationInfo (filterSortAndPaginate records view fields) ∧
    dv_fields (page_children props) = fields ∧
    dv_view (page_children props) = view.
Proof. by eexists. Qed.

(** C5. The screen wires the edit, rename, delete and revisions actions to
    the shared action subsystem: the fixed list of action ids holds
    ['edit-post'], ['rename-template'], ['delete-template'] and
    ['view-post-revisions'], and the actions handed to [DataViews] are
    what the post-actions hook returns for that list. *)
Theorem actions_are_wired (postType : string) (w : World) :
  "edit-post" ∈ TEMPLATE_ACTIONS ∧
  "rename-template" ∈ TEMPLATE_ACTIONS ∧
  "delete-template" ∈ TEMPLATE_ACTIONS ∧
  "view-post-revisions" ∈ TEMPLATE_ACTIONS ∧
  ∃ props,
    PageTemplatesTemplateParts postType w = (Returned props, w) ∧
    dv_actions (page_children props) =
      usePostActions onActionPerformed TEMPLATE_ACTIONS.
Proof.
  split_and!; [by apply (bool_decide_unpack _)..|by eexists].
Qed.

Lemma onChangeView_other_type (newView : View) (w : World) :
  v_type newView ≠ v_type (w_view w) →
  onChangeView newView w =
    (Returned (),
     {| w_params := w_params w; w_records := w_records w;
        w_isResolving := w_isResolving w;
        w_view :=
          with_layout
            (LayoutObject
               (spread_layout
                  (lookup_layout defaultConfigPerViewType (v_type newView))))
            newView;
        w_history :=
          <[ "layout" := Some (v_type newView) ]> (w_params w) :: w_history w |}).
Proof.
  intros Hne. unfold onChangeView, mbind, M_bind. cbn.
  by rewrite decide_True.
Qed.

Lemma onChangeView_same_type (newView : View) (w : World) :
  v_type newView = v_type (w_view w) →
  onChangeView newView w =
    (Returned (),
     {| w_params := w_params w; w_records := w_records w;
        w_isResolving := w_isResolving w; w_view := newView;
        w_history := w_history w |}).
Proof.
  intros Heq. unfold onChangeView, mbind, M_bind. cbn.
  rewrite decide_False; [done|]. by intros [].
Qed.

(** C9. For every view handed to [onChangeView]: when its type differs
    from the current one, the view that is stored is the new view with its
    per-layout configuration replaced by (a copy of) the default
    configuration of the new type, and the route pushed to the history is
    the current one with its [layout] parameter set to the new type; when
    the type is the same, the new view is stored as it is and the history
    is left alone. *)
Theorem onChangeView_spec (newView : View) (w : World) :
  let w' := exec (onChangeView newView) w in
  (v_type newView ≠ v_type (w_view w) →
     w_view w' =
       with_layout
         (LayoutObject
            (spread_layout
               (lookup_layout defaultConfigPerViewType (v_type newView))))
         newView ∧
     (∀ config, defaultConfigPerViewType !! v_type newView = Some config →
                v_layout (w_view w') = LayoutObject config) ∧
     w_history w' =
       <[ "layout" := Some (v_type newView) ]> (w_params w) :: w_history w ∧
     (∀ location, head (w_history w') = Some location →
        js_get location "layout" = Some (v_type newView) ∧
        ∀ k, k ≠ "layout" → location !! k = w_params w !! k)) ∧
  (v_type newView = v_type (w_view w) →
     w_view w' = newView ∧ w_history w' = w_history w).
Proof.
  intros w'. subst w'. unfold exec. split.
  - intros Hne. rewrite onChangeView_other_type by done. cbn.
    split_and!; [done| |done|].
    + intros config Hconfig. by rewrite (lookup_layout_own _ _ _ Hconfig).
    + intros location [= <-]. split.
      * unfold js_get. by rewrite lookup_insert_eq.
      * intros k Hk. by rewrite lookup_insert_ne.
  - intros Heq. by rewrite onChangeView_same_type.
Qed.

End ScreenProperties.

(** C9 on a concrete world: from the default grid view, a change to the
    table layout and a change that keeps the grid layout. *)
Lemma onChangeView_spec_witness :
  (v_layout (w_view (exec (@onChangeView sample_constants
       (with_type "table" (@DEFAULT_VIEW sample_constants)))
       (sample_world route_all))) =
     LayoutObject {| primaryField := Some "title"; mediaField := None;
                     columnFields := None |} ∧
   w_history (exec (@onChangeView sample_constants
       (with_type "table" (@DEFAULT_VIEW sample_constants)))
       (sample_world route_all)) =
     [ <[ "layout" := Some "table" ]> route_all ]) ∧
  (w_view (exec (@onChangeView sample_constants
       (with_filters [] (@DEFAULT_VIEW sample_constants)))
       (sample_world route_all)) =
     with_filters [] (@DEFAULT_VIEW sample_constants) ∧
   w_history (exec (@onChangeView sample_constants
       (with_filters [] (@DEFAULT_VIEW sample_constants)))
       (sample_world route_all)) = []).
Proof.
  split.
  - destruct (proj1 (@onChangeView_spec sample_constants
        (with_type "table" (@DEFAULT_VIEW sample_constants))
        (sample_world route_all))) as (_ & Hlayout & Hhistory & _).
    + vm_compute. discriminate.
    + split; [apply Hlayout; reflexivity|exact Hhistory].
  - apply (proj2 (@onChangeView_spec sample_constants
        (with_filters [] (@DEFAULT_VIEW sample_constants))
        (sample_world route_all))).
    reflexivity.
Defined.

(** ** The definitions at work *)

(** The enumeration keeps one entry per author, in the order of first
    occurrence. *)
Example authors_first_occurrence :
  authors (Some [ sample_template "index" "Theme"; sample_template "home" "admin";
                  sample_template "single" "Theme" ]) =
    [ {| ao_value := "Theme"; ao_label := "Theme" |};
      {| ao_value := "admin"; ao_label := "admin" |} ].
Proof. reflexivity. Qed.

Example fields_of_templates :
  f_id <$> @fields sample_constants sample_host "wp_template" [] "grid" =
    ["preview"; "title"; "description"; "author"].
Proof. reflexivity. Qed.

Example fields_of_template_parts :
  f_id <$> @fields sample_constants sample_host "wp_template_part" [] "grid" =
    ["preview"; "title"; "author"].
Proof. reflexivity. Qed.

(** A layout parameter the table does not know leaves the initial view
    without a per-layout configuration; a view change to such a type stores
    the empty configuration. *)
Example unknown_layout_at_mount :
  v_layout (@defaultView sample_constants (<[ "layout" := Some "foo" ]> ∅)) =
    LayoutUndefined.
Proof. reflexivity. Qed.

(** A layout parameter that names a member of [Object.prototype] makes
    that member the initial view's per-layout configuration. *)
Example inherited_layout_at_mount :
  v_layout (@defaultView sample_constants
              (<[ "layout" := Some "constructor" ]> ∅)) =
    LayoutInherited "constructor".
Proof. reflexivity. Qed.

Example unknown_layout_at_change :
  v_layout (w_view (exec
    (@onChangeView sample_constants (with_type "foo" (@DEFAULT_VIEW sample_constants)))
    (sample_world route_all))) =
    LayoutObject
      {| primaryField := None; mediaField := None; columnFields := None |}.
Proof. reflexivity. Qed.

(** Performing [edit-post] with no item throws before anything is pushed. *)
Example edit_post_without_items :
  onActionPerformed "edit-post" [] (sample_world route_all) =
    (Thrown "TypeError", sample_world route_all).
Proof. reflexivity. Qed.

(** In the list layout, selecting one item pushes its id to the route. *)
Example selection_in_list_layout :
  (λ location, js_get location "postId") <$>
    w_history (exec
      (@onSelectionChange sample_constants [sample_template "index" "Theme"])
      (exec (@mount sample_constants)
         (sample_world (<[ "layout" := Some "list" ]> ∅)))) =
    [Some "index"].
Proof. reflexivity. Qed.

(** ** The components *)

Section ComponentProperties.
Context `{!Constants} `{!Host}.

Lemma js_or_nonempty (a : option string) (b : string) :
  b ≠ "" → js_or a b ≠ "".
Proof. intros Hb. unfold js_or. destruct a as [s|]; [by case_decide|done]. Qed.

Lemma js_or_truthy (s b : string) : s ≠ "" → js_or (Some s) b = s.
Proof. intros Hs. unfold js_or. by rewrite decide_True. Qed.

Lemma js_or_falsy (a : option string) (b : string) :
  a = None ∨ a = Some "" → js_or a b = b.
Proof. by intros [->| ->]. Qed.

Lemma title_label_Title (item : Template) (viewType : string) :
  title_label (Title item viewType) =
    js_or (decodeEntities (title_rendered item)) (__ "(no title)").
Proof. unfold Title. by case_decide. Qed.

(** [Title] never shows an empty text, as long as the translation of
    ['(no title)'] is not empty: it shows the decoded title when that is a
    non-empty string and the placeholder otherwise, in every layout. *)
Theorem Title_label_never_empty (item : Template) (viewType : string) :
  __ "(no title)" ≠ "" →
  title_label (Title item viewType) ≠ "" ∧
  (∀ s, decodeEntities (title_rendered item) = Some s → s ≠ "" →
        title_label (Title item viewType) = s) ∧
  (decodeEntities (title_rendered item) = None ∨
   decodeEntities (title_rendered item) = Some "" →
   title_label (Title item viewType) = __ "(no title)").
Proof.
  intros Hplaceholder. rewrite title_label_Title. split_and!.
  - by apply js_or_nonempty.
  - intros s -> Hs. by apply js_or_truthy.
  - apply js_or_falsy.
Qed.

(** In the list layout [Title] is plain text. In the other layouts it is a
    link that opens the item in the editor: its parameters are the item's
    id and type and the ['edit'] canvas, nothing else, and it carries the
    way back to the template parts exactly when the item is a template
    part. *)
Theorem Title_link_target (item : Template) (viewType : string) :
  (viewType = LAYOUT_LIST ↔ ∃ text, Title item viewType = TitleText text) ∧
  (viewType ≠ LAYOUT_LIST ↔
   ∃ linkProps children,
     Title item viewType = TitleLink linkProps children ∧
     js_get (lp_params linkProps) "postId" = Some (t_id item) ∧
     js_get (lp_params linkProps) "postType" = Some (t_type item) ∧
     js_get (lp_params linkProps) "canvas" = Some "edit" ∧
     dom (lp_params linkProps) = {[ "postId"; "postType"; "canvas" ]} ∧
     (t_type item = TEMPLATE_PART_POST_TYPE →
      (λ state, js_get state "backPath") <$> lp_state linkProps =
        Some (Some "/wp_template_part/all")) ∧
     (t_type item ≠ TEMPLATE_PART_POST_TYPE → lp_state linkProps = None)).
Proof.
  unfold Title. destruct (decide (viewType = LAYOUT_LIST)) as [Hlist|Hgrid].
  - split.
    + split; [by eexists|done].
    + split; [done|]. by intros (? & ? & ? & _).
  - split.
    + split; [done|]. by intros [? ?].
    + split; [|done]. intros _.
      destruct (decide (t_type item = TEMPLATE_PART_POST_TYPE)) as [Hpart|Hpart].
      * eexists _, _. split; [done|]. cbn. split_and!; try done.
        all: rewrite !dom_insert_L, dom_empty_L; set_solver.
      * eexists _, _. split; [done|]. cbn. split_and!; try done.
        all: rewrite !dom_insert_L, dom_empty_L; set_solver.
Qed.

(** [AuthorField] always shows the name. In the list layout it shows
    neither avatar nor icon; in the other layouts it shows exactly one of
    them: the avatar when the image url is a non-empty string, with the
    [is-loaded] flag of the component's state, and the icon otherwise. *)
Theorem AuthorField_avatar_or_icon (isImageLoaded : bool) (item : Template)
    (viewType : string) :
  let added := useAddedBy (t_type item) (t_id item) in
  let output := AuthorField isImageLoaded item viewType in
  af_name output = ab_text added ∧
  (viewType = LAYOUT_LIST ↔ af_avatar output = None ∧ af_icon output = None) ∧
  (is_Some (af_avatar output) → af_icon output = None) ∧
  (∀ src loaded,
     af_avatar output = Some (src, loaded) ↔
     viewType ≠ LAYOUT_LIST ∧ ab_imageUrl added = Some src ∧ src ≠ "" ∧
     loaded = isImageLoaded) ∧
  (∀ icon,
     af_icon output = Some icon ↔
     viewType ≠ LAYOUT_LIST ∧ icon = ab_icon added ∧
     (ab_imageUrl added = None ∨ ab_imageUrl added = Some "")).
Proof.
  intros added output. subst output. unfold AuthorField. fold added.
  destruct (ab_imageUrl added) as [url|] eqn:Hurl; cbn;
    repeat case_bool_decide; cbn; split_and!; try done;
    try (intros; split; intuition congruence).
Qed.

End ComponentProperties.

(** [Title_label_never_empty] on the sample host, whose translation is the
    identity. *)
Lemma Title_label_never_empty_witness :
  @__ sample_host "(no title)" ≠ "" ∧
  title_label (@Title sample_constants sample_host sample_part "grid") ≠ "".
Proof.
  assert (Hplaceholder : @__ sample_host "(no title)" ≠ "").
  { vm_compute. discriminate. }
  split; [exact Hplaceholder|].
  exact (proj1 (@Title_label_never_empty sample_constants sample_host
                  sample_part "grid" Hplaceholder)).
Defined.

Section PreviewProperties.
Context `{!Constants} `{!Host}.

Lemma Preview_list (item : Template) :
  pv_button (Preview item LAYOUT_LIST) = None ∧
  pv_listBlocks (Preview item LAYOUT_LIST) =
    if decide (parse (t_content_raw item) = [])
    then None else Some (parse (t_content_raw item)).
Proof.
  unfold Preview. cbn. rewrite decide_False by (by intros []).
  split; [done|]. rewrite bool_decide_eq_true_2 by done. cbn.
  destruct (parse (t_content_raw item)) as [|b bs]; by cbn.
Qed.

Lemma Preview_not_list (item : Template) (viewType : string) :
  viewType ≠ LAYOUT_LIST →
  pv_listBlocks (Preview item viewType) = None ∧
  ∃ button,
    pv_button (Preview item viewType) = Some button ∧
    pb_blocks button =
      (if decide (parse (t_content_raw item) = [])
       then None else Some (parse (t_content_raw item))) ∧
    pb_emptyText button =
      (if decide (parse (t_content_raw item) = [])
       then Some (if decide (t_type item = TEMPLATE_POST_TYPE)
                  then __ "Empty template" else __ "Empty template part")
       else None).
Proof.
  intros Hne. unfold Preview. cbn. rewrite decide_True by done.
  rewrite bool_decide_eq_false_2 by done. split; [done|].
  eexists. split; [done|]. cbn.
  destruct (parse (t_content_raw item)) as [|b bs]; by cbn.
Qed.

(** [Preview] never mounts [BlockPreview] on nothing: the blocks it hands
    over, in the list layout or inside the button, are the parsed content of
    the item and are not empty. *)
Theorem Preview_blocks_never_empty (item : Template) (viewType : string)
    (blocks : list Block) :
  previewed_blocks (Preview item viewType) = Some blocks →
  blocks = parse (t_content_raw item) ∧ blocks ≠ [].
Proof.
  unfold previewed_blocks.
  destruct (decide (viewType = LAYOUT_LIST)) as [->|Hne].
  - destruct (Preview_list item) as [-> ->].
    case_decide; cbn; [done|]. by intros [= <-].
  - destruct (Preview_not_list item viewType Hne)
      as (-> & button & -> & Hblocks & _).
    cbn. rewrite Hblocks. case_decide; [done|]. by intros [= <-].
Qed.

(** The two shapes of [Preview]. In the list layout there is no button, and
    the blocks are shown exactly when the parsed content is not empty, so
    an empty item shows nothing at all. In the other layouts there is
    always a button, which shows either the blocks or, for empty content,
    the message for the item's post type, never both and never neither. *)
Theorem Preview_layout_cases (item : Template) (viewType : string) :
  let output := Preview item viewType in
  let blocks := parse (t_content_raw item) in
  (viewType = LAYOUT_LIST ↔ pv_button output = None) ∧
  (is_Some (previewed_blocks output) ↔ blocks ≠ []) ∧
  (∀ button, pv_button output = Some button →
     pv_listBlocks output = None ∧
     (is_Some (pb_emptyText button) ↔ pb_blocks button = None) ∧
     (is_Some (pb_emptyText button) ↔ blocks = []) ∧
     (∀ text, pb_emptyText button = Some text →
        text = if decide (t_type item = TEMPLATE_POST_TYPE)
               then __ "Empty template" else __ "Empty template part")).
Proof.
  intros output blocks. subst output. unfold previewed_blocks.
  destruct (decide (viewType = LAYOUT_LIST)) as [->|Hne].
  - destruct (Preview_list item) as [-> ->]. fold blocks.
    split_and!; [done| |done].
    case_decide as Hb; cbn; [|by split; [|eexists]].
    split; [by intros [? ?]|done].
  - destruct (Preview_not_list item viewType Hne)
      as (-> & button & -> & Hblocks & Hempty).
    fold blocks in Hblocks, Hempty. cbn. split_and!.
    + split; [done|]. by intros.
    + rewrite Hblocks. case_decide as Hb; cbn; [|by split; [|eexists]].
      split; [by intros [? ?]|done].
    + intros ? [= <-]. rewrite Hblocks, Hempty.
      split_and!; [done|..]; case_decide as Hb; cbn.
      * split; [done|by eexists].
      * split; [by intros [? ?]|done].
      * split; [done|by eexists].
      * split; [by intros [? ?]|done].
      * by intros text [= <-].
      * done.
Qed.

End PreviewProperties.

(** [Preview_blocks_never_empty] on the sample part in the list layout; the
    sample host parses a non-empty content into one block. *)
Lemma Preview_blocks_never_empty_witness :
  previewed_blocks (@Preview sample_constants sample_host sample_part "list") =
    Some ["<!-- wp:site-title /-->"] ∧
  ["<!-- wp:site-title /-->"] = @parse sample_host (t_content_raw sample_part) ∧
  ["<!-- wp:site-title /-->"] ≠ [].
Proof.
  assert (Hblocks :
    previewed_blocks (@Preview sample_constants sample_host sample_part "list") =
      Some ["<!-- wp:site-title /-->"]) by reflexivity.
  split; [exact Hblocks|].
  exact (@Preview_blocks_never_empty sample_constants sample_host sample_part
           "list" ["<!-- wp:site-title /-->"] Hblocks).
Defined.

(** ** The handlers *)

Section HandlerProperties.
Context `{!Constants}.

Lemma World_eta (w : World) :
  {| w_params := w_params w; w_records := w_records w;
     w_isResolving := w_isResolving w; w_view := w_view w;
     w_history := w_history w |} = w.
Proof. by destruct w. Qed.

(** The id the selection puts on the route. *)
Lemma selected_postId (items : list Template) :
  (if decide (length items = 1%nat) then t_id <$> items !! 0%nat else None) =
    match items with
    | [item] => Some (t_id item)
    | _ => None
    end.
Proof. by destruct items as [|item [|item' items]]. Qed.

Lemma onSelectionChange_list (items : list Template) (w : World) :
  v_type (w_view w) = LAYOUT_LIST →
  onSelectionChange items w =
    history_push
      (<[ "postId" := match items with
                      | [item] => Some (t_id item)
                      | _ => None
                      end ]> (w_params w)) w.
Proof.
  intros Hlist. unfold onSelectionChange, mbind, M_bind. cbn.
  by rewrite decide_True, selected_postId.
Qed.

(** A lookup-wise description of the default view's inputs. *)
Lemma defaultView_ext (params params' : JsObject) :
  js_get params "activeView" = js_get params' "activeView" →
  js_get params "layout" = js_get params' "layout" →
  defaultView params = defaultView params'.
Proof.
  intros Ha Hl. unfold defaultView, activeView_of, layout_of. by rewrite Ha, Hl.
Qed.

(** Outside the list layout a selection changes nothing: no route is
    pushed, whatever is selected. *)
Theorem onSelectionChange_outside_list (items : list Template) (w : World) :
  v_type (w_view w) ≠ LAYOUT_LIST →
  onSelectionChange items w = (Returned (), w).
Proof.
  intros Hne. unfold onSelectionChange, mbind, M_bind. cbn.
  rewrite decide_False by done. done.
Qed.

(** In the list layout a selection pushes one route: the current one with
    [postId] set to the id of the selected item when exactly one item is
    selected, and to [undefined] when none or several are. Every other
    parameter is kept, so the view that route starts from is the one the
    current route starts from; the stored view is not touched. *)
Theorem onSelectionChange_in_list (items : list Template) (w : World) :
  v_type (w_view w) = LAYOUT_LIST →
  ∃ location,
    (onSelectionChange items w).1 = Returned () ∧
    w_history (exec (onSelectionChange items) w) = location :: w_history w ∧
    w_view (exec (onSelectionChange items) w) = w_view w ∧
    js_get location "postId" =
      match items with
      | [item] => Some (t_id item)
      | _ => None
      end ∧
    (∀ k, k ≠ "postId" → location !! k = w_params w !! k) ∧
    defaultView location = defaultView (w_params w).
Proof.
  intros Hlist. eexists. unfold exec.
  rewrite onSelectionChange_list by done. cbn. split_and!; try done.
  - unfold js_get. by rewrite lookup_insert_eq.
  - intros k Hk. by rewrite lookup_insert_ne.
  - apply defaultView_ext; unfold js_get; by rewrite lookup_insert_ne.
Qed.

(** [onActionPerformed] throws exactly when ['edit-post'] comes without an
    item, and it changes the world for no other action than ['edit-post']:
    every other action id, and ['edit-post'] on no item, leave the view and
    the history as they were. *)
Theorem onActionPerformed_throws_iff (actionId : string)
    (items : list Template) (w : World) :
  ((onActionPerformed actionId items w).1 = Thrown "TypeError" ↔
   actionId = "edit-post" ∧ items = []) ∧
  ((onActionPerformed actionId items w).1 = Returned () ↔
   actionId ≠ "edit-post" ∨ items ≠ []) ∧
  (exec (onActionPerformed actionId items) w ≠ w →
   actionId = "edit-post" ∧ items ≠ []).
Proof.
  unfold exec, onActionPerformed.
  destruct (decide (actionId = "edit-post")) as [->|Hother];
    [destruct items as [|post rest]|]; cbn.
  - split_and!.
    + by split.
    + split; [done|]. by intros [?|?].
    + by intros Hw.
  - split_and!.
    + split; [done|]. by intros [_ ?].
    + split; [by right|done].
    + done.
  - split_and!.
    + split; [done|]. by intros [? _].
    + split; [by left|done].
    + by intros Hw.
Qed.

(** ['edit-post'] on at least one item pushes one route that opens the
    first item in the editor: its id, its type and the ['edit'] canvas. The
    other items play no part, and the current route's parameters are not
    carried over, so the pushed route has neither an [activeView] nor a
    [layout]. *)
Theorem onActionPerformed_edit_post (post : Template) (rest : list Template)
    (w : World) :
  ∃ location,
    onActionPerformed "edit-post" (post :: rest) w = history_push location w ∧
    js_get location "postId" = Some (t_id post) ∧
    js_get location "postType" = Some (t_type post) ∧
    js_get location "canvas" = Some "edit" ∧
    dom location = {[ "postId"; "postType"; "canvas" ]} ∧
    js_get location "activeView" = None ∧
    js_get location "layout" = None ∧
    onActionPerformed "edit-post" (post :: rest) w =
      onActionPerformed "edit-post" [post] w.
Proof.
  eexists. unfold onActionPerformed. cbn. split_and!; try done.
  all: rewrite !dom_insert_L, dom_empty_L; set_solver.
Qed.

End HandlerProperties.

(** [onSelectionChange_outside_list] on the sample world mounted on a route
    without a layout, which gives the grid view. *)
Lemma onSelectionChange_outside_list_witness :
  v_type (w_view (mounted_world route_all)) ≠ @LAYOUT_LIST sample_constants ∧
  @onSelectionChange sample_constants [sample_part] (mounted_world route_all) =
    (Returned (), mounted_world route_all).
Proof.
  assert (Hne : v_type (w_view (mounted_world route_all)) ≠
                @LAYOUT_LIST sample_constants).
  { vm_compute. discriminate. }
  split; [exact Hne|].
  exact (@onSelectionChange_outside_list sample_constants [sample_part]
           (mounted_world route_all) Hne).
Defined.

(** [onSelectionChange_in_list] on the sample world mounted on a route with
    the list layout. *)
Lemma onSelectionChange_in_list_witness :
  v_type (w_view (mounted_world route_list)) = @LAYOUT_LIST sample_constants ∧
  ∃ location,
    (@onSelectionChange sample_constants [sample_part]
       (mounted_world route_list)).1 = Returned () ∧
    w_history (exec (@onSelectionChange sample_constants [sample_part])
                 (mounted_world route_list)) =
      location :: w_history (mounted_world route_list) ∧
    w_view (exec (@onSelectionChange sample_constants [sample_part])
              (mounted_world route_list)) = w_view (mounted_world route_list) ∧
    js_get location "postId" = Some (t_id sample_part) ∧
    (∀ k, k ≠ "postId" → location !! k = w_params (mounted_world route_list) !! k) ∧
    @defaultView sample_constants location =
      @defaultView sample_constants (w_params (mounted_world route_list)).
Proof.
  assert (Hlist : v_type (w_view (mounted_world route_list)) =
                  @LAYOUT_LIST sample_constants) by reflexivity.
  split; [exact Hlist|].
  exact (@onSelectionChange_in_list sample_constants [sample_part]
           (mounted_world route_list) Hlist).
Defined.

(** ** The view state over several steps *)

Section ViewStateProperties.
Context `{!Constants} `{!Host}.

Lemma activeViewEffect_eq (w : World) :
  activeViewEffect w =
    (Returned (),
     {| w_params := w_params w; w_records := w_records w;
        w_isResolving := w_isResolving w;
        w_view := activeViewUpdater (activeView_of (w_params w)) (w_view w);
        w_history := w_history w |}).
Proof. done. Qed.

Lemma activeViewUpdater_idempotent (activeView : string) (view : View) :
  activeViewUpdater activeView (activeViewUpdater activeView view) =
    activeViewUpdater activeView view.
Proof. done. Qed.

(** Running the [activeView] effect again on the same route changes
    nothing more, and one run changes nothing but the filters: the type,
    the search, the page, the sort, the hidden fields and the layout of the
    view stay, and so do the route and the history. *)
Theorem activeViewEffect_idempotent (w : World) :
  exec activeViewEffect (exec activeViewEffect w) = exec activeViewEffect w ∧
  with_filters (v_filters (w_view w)) (w_view (exec activeViewEffect w)) =
    w_view w ∧
  w_params (exec activeViewEffect w) = w_params w ∧
  w_history (exec activeViewEffect w) = w_history w.
Proof.
  unfold exec. rewrite !activeViewEffect_eq. cbn. split_and!; try done.
  apply activeViewUpdater_frame.
Qed.

(** When the imported operator constant is the string the default view
    spells out, the effect that runs after mounting finds the view already
    as it wants it: it leaves the whole world as mounting left it. *)
Theorem activeViewEffect_after_mount (w : World) :
  OPERATOR_IS_ANY = "isAny" →
  exec activeViewEffect (exec mount w) = exec mount w.
Proof.
  intros Hop. unfold exec. rewrite activeViewEffect_eq. cbn.
  f_equal. unfold activeViewUpdater, defaultView. rewrite Hop. done.
Qed.

Lemma onChangeView_returns (newView : View) (w : World) :
  (onChangeView newView w).1 = Returned ().
Proof.
  destruct (decide (v_type newView = v_type (w_view w))) as [Heq|Hne].
  - by rewrite onChangeView_same_type.
  - by rewrite onChangeView_other_type.
Qed.

Lemma onChangeView_type (newView : View) (w : World) :
  v_type (w_view (exec (onChangeView newView) w)) = v_type newView.
Proof.
  unfold exec.
  destruct (decide (v_type newView = v_type (w_view w))) as [Heq|Hne].
  - by rewrite onChangeView_same_type.
  - by rewrite onChangeView_other_type.
Qed.

(** [onChangeView] always returns, and the view it stores differs from the
    view it was given in the layout configuration at most: type, search,
    page, page size, sort, hidden fields and filters are stored as given. *)
Theorem onChangeView_only_layout (newView : View) (w : World) :
  (onChangeView newView w).1 = Returned () ∧
  with_layout (v_layout newView) (w_view (exec (onChangeView newView) w)) =
    newView.
Proof.
  split; [apply onChangeView_returns|]. unfold exec.
  destruct (decide (v_type newView = v_type (w_view w))) as [Heq|Hne].
  - rewrite onChangeView_same_type by done. cbn. by destruct newView.
  - rewrite onChangeView_other_type by done. cbn. by destruct newView.
Qed.

(** Handing the same view to [onChangeView] a second time pushes nothing
    more to the history, whatever the first call did, and stores the view
    exactly as given, its own layout configuration included. *)
Theorem onChangeView_twice (newView : View) (w : World) :
  let w1 := exec (onChangeView newView) w in
  let w2 := exec (onChangeView newView) w1 in
  w_history w2 = w_history w1 ∧ w_view w2 = newView.
Proof.
  intros w1 w2. subst w2. unfold exec at 1 2.
  rewrite onChangeView_same_type; [done|].
  subst w1. by rewrite onChangeView_type.
Qed.

(** A change to one of the three layouts can be reloaded: the screen
    mounted on the route that [onChangeView] pushed starts with the type
    and the layout configuration that [onChangeView] stored, and with the
    filters of the current route's default view. *)
Theorem onChangeView_reload (newView : View) (w : World) :
  v_type newView ≠ v_type (w_view w) →
  is_Some (defaultConfigPerViewType !! v_type newView) →
  ∃ location,
    head (w_history (exec (onChangeView newView) w)) = Some location ∧
    v_type (defaultView location) =
      v_type (w_view (exec (onChangeView newView) w)) ∧
    v_layout (defaultView location) =
      v_layout (w_view (exec (onChangeView newView) w)) ∧
    v_filters (defaultView location) = v_filters (defaultView (w_params w)).
Proof.
  intros Hne [config Hconfig]. eexists. unfold exec.
  rewrite onChangeView_other_type by done. cbn. split; [done|].
  unfold defaultView, layout_of, activeView_of, js_get.
  rewrite lookup_insert_eq, lookup_insert_ne by done. cbn.
  by rewrite (lookup_layout_own _ _ _ Hconfig).
Qed.

Lemma pushes_never {A} (m : M A) :
  (∀ w, w_history (exec m w) = w_history w) →
  pushes_exactly_when m (λ _, False).
Proof. intros Hm w. split; [done|]. intros _. apply Hm. Qed.

Lemma pushes_onSelectionChange (items : list Template) :
  pushes_exactly_when (onSelectionChange items)
    (λ w, v_type (w_view w) = LAYOUT_LIST).
Proof.
  intros w. unfold exec. split.
  - intros Hlist. rewrite onSelectionChange_list by done. by eexists.
  - intros Hne. unfold onSelectionChange, mbind, M_bind. cbn.
    by rewrite decide_False.
Qed.

Lemma pushes_onActionPerformed (actionId : string) (items : list Template) :
  pushes_exactly_when (onActionPerformed actionId items)
    (λ _, actionId = "edit-post" ∧ items ≠ []).
Proof.
  intros w. unfold exec, onActionPerformed. split.
  - intros [-> Hitems]. destruct items as [|post rest]; [done|].
    cbn. by eexists.
  - intros Hnot. case_decide as Hid; [|done].
    destruct items as [|post rest]; [done|]. destruct Hnot. by split.
Qed.

Lemma pushes_onChangeView (newView : View) :
  pushes_exactly_when (onChangeView newView)
    (λ w, v_type newView ≠ v_type (w_view w)).
Proof.
  intros w. unfold exec. split.
  - intros Hne. rewrite onChangeView_other_type by done. by eexists.
  - intros Heq. apply dec_stable in Heq.
    by rewrite onChangeView_same_type.
Qed.

(** When the screen navigates. Mounting, the [activeView] effect and
    rendering never call [history.push]. Each handler calls it at most once
    per call: [onSelectionChange] exactly in the list layout,
    [onActionPerformed] exactly for ['edit-post'] on at least one item,
    [onChangeView] exactly when the type of the view changes. *)
Theorem screen_navigates_exactly_when :
  pushes_exactly_when mount (λ _, False) ∧
  pushes_exactly_when activeViewEffect (λ _, False) ∧
  (∀ postType,
     pushes_exactly_when (PageTemplatesTemplateParts postType) (λ _, False)) ∧
  (∀ items,
     pushes_exactly_when (onSelectionChange items)
       (λ w, v_type (w_view w) = LAYOUT_LIST)) ∧
  (∀ actionId items,
     pushes_exactly_when (onActionPerformed actionId items)
       (λ _, actionId = "edit-post" ∧ items ≠ [])) ∧
  (∀ newView,
     pushes_exactly_when (onChangeView newView)
       (λ w, v_type newView ≠ v_type (w_view w))).
Proof.
  split_and!.
  - by apply pushes_never.
  - by apply pushes_never.
  - intros postType. by apply pushes_never.
  - apply pushes_onSelectionChange.
  - apply pushes_onActionPerformed.
  - apply pushes_onChangeView.
Qed.

End ViewStateProperties.

(** [activeViewEffect_after_mount] on the sample constants, on a route that
    selects an author. *)
Lemma activeViewEffect_after_mount_witness :
  @OPERATOR_IS_ANY sample_constants = "isAny" ∧
  exec (@activeViewEffect sample_constants) (mounted_world route_author) =
    mounted_world route_author.
Proof.
  assert (Hop : @OPERATOR_IS_ANY sample_constants = "isAny") by reflexivity.
  split; [exact Hop|].
  exact (@activeViewEffect_after_mount sample_constants
           (sample_world route_author) Hop).
Defined.

(** [onChangeView_reload] on a change from the grid to the table layout. *)
Lemma onChangeView_reload_witness :
  v_type (with_type "table" (@DEFAULT_VIEW sample_constants)) ≠
    v_type (w_view (mounted_world route_all)) ∧
  ∃ location,
    head (w_history (exec
      (@onChangeView sample_constants
         (with_type "table" (@DEFAULT_VIEW sample_constants)))
      (mounted_world route_all))) = Some location ∧
    v_type (@defaultView sample_constants location) = "table".
Proof.
  split; [vm_compute; discriminate|].
  destruct (@onChangeView_reload sample_constants
              (with_type "table" (@DEFAULT_VIEW sample_constants))
              (mounted_world route_all))
    as (location & Hhead & Htype & _).
  - vm_compute. discriminate.
  - by eexists.
  - exists location. split; [exact Hhead|]. by rewrite Htype.
Defined.

(** ** The field descriptors *)

Section DescriptorProperties.
Context `{!Constants} `{!Host}.

(** Splits [f ∈ fields ...] into the descriptors the list is built from. *)
Ltac fields_cases Hf :=
  unfold fields in Hf;
  match type of Hf with
  | context [decide (?postType = TEMPLATE_POST_TYPE)] =>
      destruct (decide (postType = TEMPLATE_POST_TYPE))
  end;
  cbn in Hf;
  repeat (apply elem_of_cons in Hf as [->|Hf]);
  try (by apply elem_of_nil in Hf).

Lemma Forall_fields (P : Field → Prop) (postType : string)
    (authors : list AuthorOption) (viewType : string) :
  (∀ f, f ∈ fields postType authors viewType → P f) →
  Forall P (fields postType authors viewType).
Proof. intros HP. by apply Forall_forall. Qed.

(** The descriptors are consistent with one another: a field can be sorted
    unless it has no value accessor, a field with both widths has
    [0 < minWidth ≤ maxWidth], and a field lists elements exactly when its
    type is the enumeration type. *)
Theorem fields_descriptors_consistent (postType : string)
    (authors : list AuthorOption) (viewType : string) :
  Forall
    (λ f,
       (f_getValue f = None ↔ f_enableSorting f = Some false) ∧
       (∀ lo hi, f_minWidth f = Some lo → f_maxWidth f = Some hi →
                 0 < lo ≤ hi) ∧
       (is_Some (f_elements f) ↔ f_type f = Some ENUMERATION_TYPE))
    (fields postType authors viewType).
Proof.
  apply Forall_fields. intros f Hf.
  fields_cases Hf; cbn; split_and!;
    try (split; [done|by intros [? ?]]);
    try (split; [by eexists|done]);
    try done;
    try (intros lo hi [= <-] [= <-]; lia).
Qed.

(** The author column filters over what the records hold: the descriptor
    with id ['author'] is an enumeration whose elements are free of
    duplicates, every record's author value is the value of one of the
    elements, and every element is the author value of some record. *)
Theorem author_options_cover_records (postType : string)
    (records : list Template) (viewType : string) :
  ∃ f getValue elements,
    f ∈ fields postType (authors (Some records)) viewType ∧
    f_id f = "author" ∧
    f_type f = Some ENUMERATION_TYPE ∧
    f_getValue f = Some getValue ∧
    f_elements f = Some elements ∧
    NoDup (ao_value <$> elements) ∧
    (∀ record, record ∈ records →
       ∃ element, element ∈ elements ∧
                  getValue record = Some (ao_value element)) ∧
    (∀ element, element ∈ elements →
       ∃ record, record ∈ records ∧
                 getValue record = Some (ao_value element)).
Proof.
  eexists _, (λ item, Some (t_author_text item)), (authors (Some records)).
  split.
  { unfold fields. apply elem_of_app. right. apply list_elem_of_here. }
  split_and!; try done.
  - rewrite authors_values. apply NoDup_authorsSet, NoDup_nil_2.
  - intros record Hrecord.
    assert (Hin : t_author_text record ∈ (ao_value <$> authors (Some records))).
    { rewrite authors_values, elem_of_authorsSet. right. by exists record. }
    apply list_elem_of_fmap in Hin as (element & Hvalue & Helement).
    exists element. split; [done|]. by rewrite Hvalue.
  - intros element Helement.
    assert (Hin : ao_value element ∈ (ao_value <$> authors (Some records))).
    { apply list_elem_of_fmap. by exists element. }
    rewrite authors_values, elem_of_authorsSet in Hin.
    destruct Hin as [Hin|(record & Hrecord & Htext)];
      [by apply elem_of_nil in Hin|].
    exists record. split; [done|]. by rewrite Htext.
Qed.

(** What the description column shows for a template: the decoded
    description whenever the item has a non-empty one, in every layout; for
    an item without description the dash with its hidden text in the table
    layout, and nothing in the other layouts. *)
Theorem description_render_cases (authors : list AuthorOption)
    (viewType : string) :
  ∃ f,
    f ∈ fields TEMPLATE_POST_TYPE authors viewType ∧
    f_id f = "description" ∧
    ∀ item,
      (t_description item ≠ "" →
       f_render f item =
         DescriptionElement (decodeEntities (Some (t_description item)))) ∧
      (t_description item = "" → viewType = LAYOUT_TABLE →
       f_render f item = NoDescriptionElement "—" (__ "No description.")) ∧
      (f_render f item = RendersNothing ↔
       t_description item = "" ∧ viewType ≠ LAYOUT_TABLE).
Proof.
  eexists. split.
  { unfold fields. rewrite decide_True by done. cbn.
    by eapply (list_elem_of_lookup_2 _ 2%nat). }
  cbn. split; [done|]. intros item.
  destruct (decide (t_description item ≠ "")) as [Hd|Hd];
    [|destruct (decide (viewType = LAYOUT_TABLE)) as [Ht|Ht]]; split_and!;
    try done; try (split; [done|by intros [? ?]]).
  split; [|done]. intros _. split; [apply dec_stable, Hd|done].
Qed.

(** The view configuration names fields that exist. For every post type,
    the primary and the media field of every default layout configuration,
    the field [DEFAULT_VIEW] sorts by and the fields it hides are ids of
    derived fields; for the template post type so are the column fields. *)
Theorem view_configuration_names_fields (postType : string)
    (authors : list AuthorOption) (viewType : string) :
  let ids := f_id <$> fields postType authors viewType in
  map_Forall
    (λ _ config,
       (∀ id, primaryField config = Some id → id ∈ ids) ∧
       (∀ id, mediaField config = Some id → id ∈ ids) ∧
       (postType = TEMPLATE_POST_TYPE →
        ∀ columns id, columnFields config = Some columns →
                      id ∈ columns → id ∈ ids))
    defaultConfigPerViewType ∧
  sort_field (v_sort DEFAULT_VIEW) ∈ ids ∧
  Forall (λ id, id ∈ ids) (v_hiddenFields DEFAULT_VIEW).
Proof.
  intros ids. subst ids. rewrite fields_ids.
  assert (Htitle : ∀ pt : string,
    "title" ∈ (if decide (pt = TEMPLATE_POST_TYPE)
               then ["preview"; "title"; "description"; "author"]
               else ["preview"; "title"; "author"])).
  { intros pt. case_decide; by apply (bool_decide_unpack _). }
  assert (Hpreview : ∀ pt : string,
    "preview" ∈ (if decide (pt = TEMPLATE_POST_TYPE)
                 then ["preview"; "title"; "description"; "author"]
                 else ["preview"; "title"; "author"])).
  { intros pt. case_decide; by apply (bool_decide_unpack _). }
  split_and!.
  - unfold defaultConfigPerViewType.
    repeat apply map_Forall_insert_2; [..|apply map_Forall_empty]; cbn;
      (split_and!; [by intros ? [= <-]|try done; by intros ? [= <-]|]).
    + done.
    + intros -> columns id [= <-] Hid. rewrite decide_True by done.
      apply list_elem_of_singleton in Hid as ->.
      by apply (bool_decide_unpack _).
    + done.
  - apply Htitle.
  - cbn. repeat constructor. apply Hpreview.
Qed.

(** For a post type other than the template post type the grid layout asks
    for a column that is not there: its column fields name ['description'],
    which is not the id of any derived field. *)
Theorem grid_column_missing_for_parts (postType : string)
    (authors : list AuthorOption) (viewType : string) :
  LAYOUT_GRID ≠ LAYOUT_LIST →
  postType ≠ TEMPLATE_POST_TYPE →
  ∃ config,
    defaultConfigPerViewType !! LAYOUT_GRID = Some config ∧
    columnFields config = Some ["description"] ∧
    "description" ∉ (f_id <$> fields postType authors viewType).
Proof.
  intros Hgl Hpt. eexists. split_and!.
  - unfold defaultConfigPerViewType.
    rewrite lookup_insert_ne by done. apply lookup_insert_eq.
  - done.
  - rewrite fields_ids, decide_False by done. by apply (bool_decide_unpack _).
Qed.

End DescriptorProperties.

(** [grid_column_missing_for_parts] on the sample constants and the
    template-part post type. *)
Lemma grid_column_missing_for_parts_witness :
  @LAYOUT_GRID sample_constants ≠ @LAYOUT_LIST sample_constants ∧
  "wp_template_part" ≠ @TEMPLATE_POST_TYPE sample_constants ∧
  ∃ config,
    @defaultConfigPerViewType sample_constants !! @LAYOUT_GRID sample_constants =
      Some config ∧
    columnFields config = Some ["description"] ∧
    "description" ∉
      (f_id <$> @fields sample_constants sample_host "wp_template_part" [] "grid").
Proof.
  assert (Hgl : @LAYOUT_GRID sample_constants ≠ @LAYOUT_LIST sample_constants).
  { vm_compute. discriminate. }
  assert (Hpt : "wp_template_part" ≠ @TEMPLATE_POST_TYPE sample_constants).
  { vm_compute. discriminate. }
  split; [exact Hgl|]. split; [exact Hpt|].
  exact (@grid_column_missing_for_parts sample_constants sample_host
           "wp_template_part" [] "grid" Hgl Hpt).
Defined.

(** ** The author enumeration, record by record *)

Section AuthorOrderProperties.

(** The set only grows at its end while the records are walked, by at most
    one author per record. *)
Lemma authorsSet_extends (records : list Template) (s0 : list string) :
  ∃ added,
    foldl (λ s template, set_add (t_author_text template) s) s0 records =
      s0 ++ added ∧
    (length added ≤ length records)%nat.
Proof.
  revert s0. induction records as [|r records IH]; intros s0; cbn.
  - exists []. by rewrite app_nil_r.
  - destruct (IH (set_add (t_author_text r) s0)) as (added & -> & Hlen).
    unfold set_add. case_decide.
    + exists added. split; [done|lia].
    + exists (t_author_text r :: added). rewrite <- app_assoc. cbn.
      split; [done|lia].
Qed.

(** One more record at the end adds its author at the end of the
    enumeration when that author is new, and changes nothing when the
    author is already listed: the enumeration is in the order in which the
    authors first occur. *)
Theorem authors_snoc (records : list Template) (record : Template) :
  authors (Some (records ++ [record])) =
    if decide (t_author_text record ∈ (ao_value <$> authors (Some records)))
    then authors (Some records)
    else authors (Some records) ++
           [ {| ao_value := t_author_text record;
                ao_label := t_author_text record |} ].
Proof.
  rewrite authors_values. unfold authors. rewrite foldl_app. cbn.
  unfold set_add at 1. case_decide; [done|]. by rewrite fmap_app.
Qed.

(** The enumeration starts with the author of the first record and never
    has more elements than there are records. *)
Theorem authors_order_and_size (records : list Template) :
  (length (authors (Some records)) ≤ length records)%nat ∧
  head (authors (Some records)) =
    (λ record, {| ao_value := t_author_text record;
                  ao_label := t_author_text record |}) <$> head records.
Proof.
  unfold authors. rewrite length_fmap. split.
  - destruct (authorsSet_extends records []) as (added & -> & Hlen). done.
  - destruct records as [|r records]; [done|]. cbn.
    destruct (authorsSet_extends records (set_add (t_author_text r) []))
      as (added & -> & _).
    done.
Qed.

End AuthorOrderProperties.

(** ** What the view is changed by *)

Section ViewFrameProperties.
Context `{!Constants} `{!Host}.

Lemma onSelectionChange_view (items : list Template) (w : World) :
  w_view (exec (onSelectionChange items) w) = w_view w.
Proof.
  unfold exec.
  destruct (decide (v_type (w_view w) = LAYOUT_LIST)) as [Hlist|Hne].
  - by rewrite onSelectionChange_list.
  - unfold onSelectionChange, mbind, M_bind. cbn. by rewrite decide_False.
Qed.

Lemma onActionPerformed_view (actionId : string) (items : list Template)
    (w : World) :
  w_view (exec (onActionPerformed actionId items) w) = w_view w.
Proof.
  unfold exec, onActionPerformed.
  case_decide; [destruct items as [|post rest]|]; done.
Qed.

(** Selecting items, performing an action and rendering never change the
    stored view, and the [activeView] effect keeps its type and its layout
    configuration: only [onChangeView] switches the layout of the screen. *)
Theorem view_kept_by_other_handlers (w : World) :
  (∀ items, w_view (exec (onSelectionChange items) w) = w_view w) ∧
  (∀ actionId items,
     w_view (exec (onActionPerformed actionId items) w) = w_view w) ∧
  (∀ postType,
     w_view (exec (PageTemplatesTemplateParts postType) w) = w_view w) ∧
  v_type (w_view (exec activeViewEffect w)) = v_type (w_view w) ∧
  v_layout (w_view (exec activeViewEffect w)) = v_layout (w_view w).
Proof.
  split_and!; [| | done..].
  - intros items. apply onSelectionChange_view.
  - intros actionId items. apply onActionPerformed_view.
Qed.

(** Handing [DataViews]' [onChangeView] callback the very view that was
    rendered changes nothing: the view stays, nothing is pushed. *)
Theorem onChangeView_rendered_view (postType : string) (w : World) :
  ∃ props,
    PageTemplatesTemplateParts postType w = (Returned props, w) ∧
    dv_onChangeView (page_children props) (dv_view (page_children props)) w =
      (Returned (), w).
Proof.
  eexists. split; [done|]. cbn.
  rewrite onChangeView_same_type by done. by rewrite World_eta.
Qed.

End ViewFrameProperties.

(** ** The records are only read *)

Section StoreProperties.
Context `{!Constants} `{!Store.Host}.

Lemma extends_refl (σ : Store.State) : Store.extends (Store.heap σ) σ.
Proof. by intros l _. Qed.

(** An extension has every location of the heap it extends. *)
Lemma extends_dom (h : Store.Heap) (σ : Store.State) (l : Store.loc) :
  Store.extends h σ → l ∈ dom h → l ∈ dom (Store.heap σ).
Proof.
  intros Hext Hl. apply elem_of_dom. rewrite (Hext l Hl).
  by apply elem_of_dom.
Qed.

Lemma preserves_keeps_objects {A} (m : Store.S A) :
  (∀ h, Store.preserves h m) → Store.keeps_objects m.
Proof. intros Hm σ. apply Hm, extends_refl. Qed.

Lemma preserves_ret {A} (h : Store.Heap) (a : A) :
  Store.preserves h (mret a : Store.S A).
Proof. by intros σ Hext. Qed.

Lemma preserves_throw {A} (h : Store.Heap) (error : string) :
  Store.preserves h (Store.throw (A := A) error).
Proof. by intros σ Hext. Qed.

Lemma preserves_get (h : Store.Heap) (v : Store.Value) (k : string) :
  Store.preserves h (Store.get v k).
Proof.
  intros σ Hext. unfold Store.exec, Store.get.
  destruct v as [| | | |l]; try done. by destruct (Store.heap σ !! l).
Qed.

Lemma preserves_get_opt (h : Store.Heap) (v : Store.Value) (k : string) :
  Store.preserves h (Store.get_opt v k).
Proof.
  destruct v; cbn; first [apply preserves_ret | apply preserves_get].
Qed.

Lemma preserves_spread (h : Store.Heap) (l : Store.loc) :
  Store.preserves h (Store.spread l).
Proof.
  intros σ Hext. unfold Store.exec, Store.spread.
  by destruct (Store.heap σ !! l).
Qed.

Lemma preserves_history_push (h : Store.Heap) (location : Store.loc) :
  Store.preserves h (Store.history_push location).
Proof. by intros σ Hext. Qed.

(** Sequencing: whether the first part returns or throws. *)
Lemma preserves_bind {A B} (h : Store.Heap) (m : Store.S A)
    (f : A → Store.S B) :
  Store.preserves h m → (∀ a, Store.preserves h (f a)) →
  Store.preserves h (m ≫= f).
Proof.
  intros Hm Hf σ Hext. specialize (Hm σ Hext).
  unfold Store.exec, mbind, Store.S_bind in *.
  destruct (m σ) as [[a|e] σ1]; cbn in *; [|done].
  by apply Hf.
Qed.

(** An allocation takes a location that none of the kept objects has. *)
Lemma preserves_alloc_bind {B} (h : Store.Heap) (o : Store.Object)
    (f : Store.loc → Store.S B) :
  (∀ l, l ∉ dom h → Store.preserves h (f l)) →
  Store.preserves h (Store.alloc o ≫= f).
Proof.
  intros Hf σ Hext. unfold Store.exec, mbind, Store.S_bind, Store.alloc. cbn.
  assert (Hfresh : fresh (dom (Store.heap σ)) ∉ dom h).
  { intros Hin. apply (is_fresh (dom (Store.heap σ))).
    by apply (extends_dom h). }
  apply (Hf _ Hfresh). intros l Hl. cbn.
  rewrite lookup_insert_ne; [by apply Hext|]. by intros <-.
Qed.

Lemma preserves_alloc (h : Store.Heap) (o : Store.Object) :
  Store.preserves h (Store.alloc o).
Proof.
  intros σ Hext l Hl. unfold Store.exec, Store.alloc. cbn.
  rewrite lookup_insert_ne; [by apply Hext|].
  intros <-. apply (is_fresh (dom (Store.heap σ))). by apply (extends_dom h).
Qed.

(** A write is harmless when it goes to an object that is not among the
    kept ones. *)
Lemma preserves_set (h : Store.Heap) (l : Store.loc) (k : string)
    (x : Store.Value) :
  l ∉ dom h → Store.preserves h (Store.set l k x).
Proof.
  intros Hl σ Hext l' Hl'. unfold Store.exec, Store.set.
  destruct (Store.heap σ !! l) as [o|]; cbn; [|by apply Hext].
  rewrite lookup_insert_ne; [by apply Hext|]. by intros <-.
Qed.

(** A write to an object that exists does change it: keeping the objects
    is a property of what a computation does, not of every computation. *)
Lemma write_changes_object :
  ¬ ∀ l, Store.keeps_objects (Store.set l "state" Store.VUndefined).
Proof.
  intros Hkeeps.
  specialize (Hkeeps 1%positive Store.sample_state 1%positive).
  vm_compute in Hkeeps. by specialize (Hkeeps eq_refl).
Qed.

Ltac preserves_step :=
  first
    [ apply preserves_ret
    | apply preserves_throw
    | apply preserves_get
    | apply preserves_get_opt
    | apply preserves_spread
    | apply preserves_history_push
    | apply preserves_alloc
    | apply preserves_set; assumption
    | apply preserves_alloc_bind; intros ? ?
    | apply preserves_bind; [|intros ?]
    | case_decide ].

Lemma preserves_edit_params (h : Store.Heap) (item : Store.Value) :
  Store.preserves h (Store.edit_params item).
Proof. unfold Store.edit_params. repeat preserves_step. Qed.

Lemma preserves_title_text (h : Store.Heap) (item : Store.Value) :
  Store.preserves h (Store.title_text item).
Proof. unfold Store.title_text. repeat preserves_step. Qed.

Lemma preserves_Title (h : Store.Heap) (item : Store.Value)
    (viewType : string) :
  Store.preserves h (Store.Title item viewType).
Proof.
  unfold Store.Title. case_decide.
  - apply preserves_bind; [apply preserves_title_text|intros text].
    apply preserves_ret.
  - apply preserves_bind; [apply preserves_edit_params|intros params].
    apply preserves_alloc_bind. intros linkProps HlinkProps.
    apply preserves_bind; [apply preserves_get|intros type].
    apply preserves_bind.
    + case_decide; [|apply preserves_ret].
      apply preserves_alloc_bind. intros state _.
      by apply preserves_set.
    + intros _. apply preserves_bind; [apply preserves_spread|intros props].
      apply preserves_bind; [apply preserves_title_text|intros children].
      apply preserves_ret.
Qed.

Lemma preserves_AuthorField (h : Store.Heap) (isImageLoaded : bool)
    (item : Store.Value) (viewType : string) :
  Store.preserves h (Store.AuthorField isImageLoaded item viewType).
Proof. unfold Store.AuthorField. repeat preserves_step. Qed.

Lemma preserves_Preview (h : Store.Heap) (item : Store.Value)
    (viewType : string) :
  Store.preserves h (Store.Preview item viewType).
Proof.
  unfold Store.Preview.
  apply preserves_bind; [apply preserves_get|intros content].
  apply preserves_bind; [apply preserves_get|intros raw].
  apply preserves_bind; [apply preserves_edit_params|intros linkParams].
  apply preserves_bind; [apply preserves_spread|intros linkObject].
  apply preserves_bind; [|intros button; apply preserves_ret].
  case_decide; [|apply preserves_ret].
  apply preserves_bind; [apply preserves_get|intros title].
  apply preserves_bind; [apply preserves_get_opt|intros rendered].
  apply preserves_bind; [|intros emptyText; apply preserves_ret].
  destruct (bool_decide (length (Store.parse raw) = 0%nat));
    repeat preserves_step.
Qed.

Lemma preserves_collect_authors (h : Store.Heap) (records : list Store.Value)
    (authorsSet : list Store.Value) :
  Store.preserves h (Store.collect_authors records authorsSet).
Proof.
  revert authorsSet.
  induction records as [|template records IH]; intros authorsSet; cbn.
  - apply preserves_ret.
  - apply preserves_bind; [apply preserves_get|intros author]. apply IH.
Qed.

Lemma preserves_author_options (h : Store.Heap)
    (authorsSet : list Store.Value) :
  Store.preserves h (Store.author_options authorsSet).
Proof.
  induction authorsSet as [|author authorsSet IH]; cbn.
  - apply preserves_ret.
  - apply preserves_alloc_bind. intros option _.
    apply preserves_bind; [apply IH|intros options]. apply preserves_ret.
Qed.

Lemma preserves_authors (h : Store.Heap)
    (records : option (list Store.Value)) :
  Store.preserves h (Store.authors records).
Proof.
  destruct records as [records|]; cbn; [|apply preserves_ret].
  apply preserves_bind; [apply preserves_collect_authors|intros authorsSet].
  apply preserves_author_options.
Qed.

Lemma preserves_render_description (h : Store.Heap) (viewType : string)
    (item : Store.Value) :
  Store.preserves h (Store.render_description viewType item).
Proof.
  unfold Store.render_description.
  apply preserves_bind; [apply preserves_get|intros description].
  destruct (Store.truthy description); repeat preserves_step.
Qed.

Lemma preserves_onSelectionChange (h : Store.Heap) (params : Store.loc)
    (viewType : string) (items : list Store.Value) :
  Store.preserves h (Store.onSelectionChange params viewType items).
Proof. unfold Store.onSelectionChange. repeat preserves_step. Qed.

Lemma preserves_onActionPerformed (h : Store.Heap) (actionId : string)
    (items : list Store.Value) :
  Store.preserves h (Store.onActionPerformed actionId items).
Proof.
  unfold Store.onActionPerformed. case_decide; [|apply preserves_ret].
  apply preserves_bind; [apply preserves_edit_params|intros location].
  apply preserves_history_push.
Qed.

(** C7. The records are read-only for the screen. On a heap of objects,
    every operation of the screen that is handed records (the derivation
    of the authors, the value accessors and the renderers of the fields,
    the [Title], [AuthorField] and [Preview] components, the selection and
    the action handler) leaves every object that exists when it starts as
    it is, property by property, whether it returns or throws: the fetched
    records, their title and content objects, the route's parameters. What
    these operations write goes to objects they have allocated themselves
    (the link props of [Title], the author options, the pushed locations). *)
Theorem records_are_read_only :
  (∀ records, Store.keeps_objects (Store.authors records)) ∧
  (∀ item, Store.keeps_objects (Store.getValue_title item)) ∧
  (∀ item, Store.keeps_objects (Store.getValue_author item)) ∧
  (∀ viewType item,
     Store.keeps_objects (Store.render_preview viewType item) ∧
     Store.keeps_objects (Store.render_title viewType item) ∧
     Store.keeps_objects (Store.render_author viewType item) ∧
     Store.keeps_objects (Store.render_description viewType item)) ∧
  (∀ item viewType, Store.keeps_objects (Store.Title item viewType)) ∧
  (∀ isImageLoaded item viewType,
     Store.keeps_objects (Store.AuthorField isImageLoaded item viewType)) ∧
  (∀ item viewType, Store.keeps_objects (Store.Preview item viewType)) ∧
  (∀ params viewType items,
     Store.keeps_objects (Store.onSelectionChange params viewType items)) ∧
  (∀ actionId items,
     Store.keeps_objects (Store.onActionPerformed actionId items)).
Proof.
  split_and!; intros; try split_and!; apply preserves_keeps_objects; intros h.
  - apply preserves_authors.
  - unfold Store.getValue_title. repeat preserves_step.
  - apply preserves_get.
  - apply preserves_ret.
  - apply preserves_ret.
  - apply preserves_ret.
  - apply preserves_render_description.
  - apply preserves_Title.
  - apply preserves_AuthorField.
  - apply preserves_Preview.
  - apply preserves_onSelectionChange.
  - apply preserves_onActionPerformed.
Qed.

End StoreProperties.

(** ** The heap at work *)

(** [Title] on the sample template part, outside the list layout: the link
    props hold the params and the state, three objects have been
    allocated, and the part, its title and its content are as before. *)
Example Title_on_the_heap :
  let result :=
    @Store.Title sample_constants Store.sample_host (Store.VRef 1) "grid"
      Store.sample_state in
  match result.1 with
  | Returned (Store.TitleLink props children) =>
      dom props = {[ "params"; "state" ]} ∧
      children = Store.VString "Header"
  | _ => False
  end ∧
  dom (Store.heap result.2) = dom Store.sample_heap ∪ {[ 4; 5; 6 ]}%positive ∧
  Store.heap result.2 !! 1%positive = Store.sample_heap !! 1%positive.
Proof. vm_compute. by split_and!. Qed.

(** The author options of two records of one author: one option, a new
    object holding the author as value and as label. *)
Example authors_on_the_heap :
  let result :=
    Store.authors (Some [Store.VRef 1; Store.VRef 1]) Store.sample_state in
  result.1 = Returned [4%positive] ∧
  Store.heap result.2 !! 4%positive =
    Some (<[ "label" := Store.VString "Theme" ]>
          (<[ "value" := Store.VString "Theme" ]> ∅)).
Proof. vm_compute. by split. Qed.

(** ['edit-post'] without an item reads a property of [undefined]. *)
Example edit_post_on_the_heap :
  Store.onActionPerformed "edit-post" [] Store.sample_state =
    (Thrown "TypeError", Store.sample_state).
Proof. reflexivity. Qed.
